(** * LocalCal: the Google Calendar adapter and the events route

    A shallow embedding of

    - [src/localcal-ui/src/types/calendar.ts]      (the event shapes),
    - [src/localcal-ui/src/lib/google-calendar.ts] ([fetchGoogleCalendarEvents]),
    - [src/localcal-ui/src/app/api/events/route.ts] ([GET]),
    - components/Calendar.tsx ([Calendar]), app/calendar/page.tsx
      ([CalendarPage]), app/page.tsx ([Home]) and the callbacks of
      lib/auth.ts,

    together with a model of the Event Reconciler of the design document,
    which has no implementation in the repository.

    JavaScript strings are [string]; an optional or nullable property is an
    [option]; an [async] function is a computation over an explicit [World]
    (system clock, upstream HTTP service, session provider, console) that
    either completes normally or throws. *)

From Stdlib Require Import ZArith String List.
From stdpp Require Import base numbers option list strings pretty sorting gmap.

Local Open Scope string_scope.
Local Open Scope list_scope.

(** ** Completions: a JavaScript computation returns or throws *)

Record JsError := mkJsError { err_name : string; err_message : string }.

(** [new Error(message)] *)
Definition Error (message : string) : JsError := mkJsError "Error" message.

Inductive Completion (A : Type) : Type :=
| Normal (a : A)
| Throw (e : JsError).
Arguments Normal {A} a.
Arguments Throw {A} e.

(** ** Truthiness and the [||] operator on optional strings

    [undefined], [null] and the empty string are falsy; every other string is
    truthy. *)

Definition truthy (v : option string) : bool :=
  match v with
  | Some s => negb (String.eqb s "")
  | None => false
  end.

(** [a || b] where [b] may itself be undefined *)
Definition js_or (a b : option string) : option string :=
  if truthy a then a else b.

(** [a || b] where [b] is a string *)
Definition js_or_str (a : option string) (b : string) : string :=
  match a with
  | Some s => if String.eqb s "" then b else s
  | None => b
  end.

(** ** types/calendar.ts *)

Module CalendarEvent.
Record t := mk {
  id : string;
  title : string;
  start : string;
  end_ : string;
  description : option string;
  location : option string
}.

(** The own properties of the object, in declaration order; [None] is
    [undefined]. *)
Definition properties (e : t) : list (string * option string) :=
  [ ("id", Some (id e));
    ("title", Some (title e));
    ("start", Some (start e));
    ("end", Some (end_ e));
    ("description", description e);
    ("location", location e) ].

Definition hasProperty (key : string) (e : t) : bool :=
  existsb (fun p => String.eqb (fst p) key) (properties e).
End CalendarEvent.

(** [{ dateTime?: string; date?: string }] *)
Module EventTime.
Record t := mk {
  dateTime : option string;
  date : option string
}.
End EventTime.

(** [summary] is declared as required, but the code (and its test
    'handles events without summary') provides for its absence, so it is
    optional here. [start] and [end] are required by the interface and read
    without a guard; they are present here. *)
Module GoogleCalendarEvent.
Record t := mk {
  id : string;
  summary : option string;
  start : EventTime.t;
  end_ : EventTime.t;
  description : option string;
  location : option string
}.
End GoogleCalendarEvent.

(** [items] is declared as required, but the code provides for its absence
    ([data.items || []]), so it is optional here. *)
Module GoogleCalendarResponse.
Record t := mk {
  items : option (list GoogleCalendarEvent.t)
}.
End GoogleCalendarResponse.

(** ** The runtime the program talks to *)

(** A [URL]: the part before the query, and the query as [URLSearchParams]. *)
Record URL := mkURL {
  url_base : string;
  searchParams : list (string * string)
}.

Definition new_URL (s : string) : URL := mkURL s [].

Definition has_key (name : string) (p : string * string) : bool :=
  String.eqb (fst p) name.

(** [URLSearchParams.prototype.set]: the first pair named [name] gets the
    value and the other pairs of that name are removed; without such a pair
    a new one is appended. *)
Fixpoint set_first (name value : string) (ps : list (string * string))
  : list (string * string) :=
  match ps with
  | [] => []
  | p :: rest =>
      if has_key name p
      then (name, value) :: List.filter (fun q => negb (has_key name q)) rest
      else p :: set_first name value rest
  end.

Definition URLSearchParams_set (name value : string) (u : URL) : URL :=
  mkURL (url_base u)
    (if existsb (has_key name) (searchParams u)
     then set_first name value (searchParams u)
     else searchParams u ++ [(name, value)]).

(** [URLSearchParams.prototype.get] *)
Definition URLSearchParams_get (name : string) (u : URL) : option string :=
  snd <$> List.find (has_key name) (searchParams u).

Record Request := mkRequest {
  req_url : URL;
  req_headers : list (string * string)
}.

(** What the program reads of a [Response]: [ok], [status], and the outcome
    of [json()], which rejects when the body is not JSON. *)
Record Response := mkResponse {
  ok : bool;
  status : N;
  json : Completion GoogleCalendarResponse.t
}.

(** The session of [auth()]; only [accessToken] is read. *)
Record Session := mkSession {
  accessToken : option string
}.

Record World := mkWorld {
  (** [clock k] is the [k]-th reading of the system clock, in milliseconds
      since the epoch *)
  clock : nat -> Z;
  (** the number of readings taken so far *)
  reads : nat;
  (** what the upstream does with a request: a response, or a rejection of
      [fetch] *)
  network : Request -> Completion Response;
  (** the requests issued so far with their outcomes, oldest first *)
  exchanges : list (Request * Completion Response);
  (** what [auth()] settles to; [None] is a [null] session *)
  authResult : Completion (option Session);
  (** the calls of [console.error], oldest first *)
  console : list (string * JsError)
}.

Definition tick (w : World) : World :=
  mkWorld (clock w) (S (reads w)) (network w) (exchanges w) (authResult w)
    (console w).

Definition log_exchange (q : Request) (r : Completion Response) (w : World)
  : World :=
  mkWorld (clock w) (reads w) (network w) (exchanges w ++ [(q, r)])
    (authResult w) (console w).

Definition log_console (msg : string) (e : JsError) (w : World) : World :=
  mkWorld (clock w) (reads w) (network w) (exchanges w) (authResult w)
    (console w ++ [(msg, e)]).

(** ** Async computations *)

Definition Async (A : Type) : Type := World -> Completion A * World.

Definition async_ret {A} (a : A) : Async A := fun w => (Normal a, w).

Definition async_bind {A B} (m : Async A) (k : A -> Async B) : Async B :=
  fun w =>
    match m w with
    | (Normal a, w') => k a w'
    | (Throw e, w') => (Throw e, w')
    end.

Definition throw {A} (e : JsError) : Async A := fun w => (Throw e, w).

Definition settle {A} (c : Completion A) : Async A := fun w => (c, w).

(** [try { body } catch (error) { handler }] *)
Definition try_catch {A} (body : Async A) (handler : JsError -> Async A)
  : Async A :=
  fun w =>
    match body w with
    | (Normal a, w') => (Normal a, w')
    | (Throw e, w') => handler e w'
    end.

Declare Scope async_scope.
Delimit Scope async_scope with async.
Notation "'await' x <- m ; k" := (async_bind m (fun x => k))
  (at level 10, x name, m at level 100, k at level 200,
   format "'[v' 'await'  x  <-  m ; '/' k ']'") : async_scope.
Local Open Scope async_scope.

(** [Date.now()], and the time value of [new Date()]: one reading of the
    clock. Time values are integers of magnitude at most 8.64e15, on which
    the Number addition of line 7 is exact, so they are in [Z]. *)
Definition Date_now : Async Z :=
  fun w => (Normal (clock w (reads w)), tick w).

(** [fetch(url, { headers })] *)
Definition fetch (q : Request) : Async Response :=
  fun w => let r := network w q in (r, log_exchange q r w).

(** [auth()] *)
Definition auth : Async (option Session) :=
  fun w => (authResult w, w).

(** [console.error(msg, error)] *)
Definition console_error (msg : string) (e : JsError) : Async unit :=
  fun w => (Normal tt, log_console msg e w).

(** ** [Date.prototype.toISOString] *)

(** The decimal digits of a natural number, most significant first, padded
    with zeros on the left to [width] characters. *)
Fixpoint zeros (n : nat) : string :=
  match n with
  | O => ""
  | S k => "0" +:+ zeros k
  end.

Definition pad (width : nat) (n : Z) : string :=
  let s := pretty (Z.to_N n) in
  zeros (width - String.length s) +:+ s.

(** Year, month and day of the proleptic Gregorian calendar from the number
    of days since 1970-01-01. *)
Definition civil_from_days (days : Z) : Z * Z * Z :=
  let z := (days + 719468)%Z in
  let era := (z `div` 146097)%Z in
  let doe := (z - era * 146097)%Z in
  let yoe :=
    ((doe - doe `div` 1460 + doe `div` 36524 - doe `div` 146096) `div` 365)%Z in
  let doy := (doe - (365 * yoe + yoe `div` 4 - yoe `div` 100))%Z in
  let mp := ((5 * doy + 2) `div` 153)%Z in
  let d := (doy - (153 * mp + 2) `div` 5 + 1)%Z in
  let m := (if (mp <? 10)%Z then mp + 3 else mp - 9)%Z in
  let y := (yoe + era * 400 + (if (m <=? 2)%Z then 1 else 0))%Z in
  (y, m, d).

(** Years 0 to 9999 are written with four digits, the others with a sign and
    six digits. *)
Definition year_string (y : Z) : string :=
  if ((0 <=? y) && (y <=? 9999))%Z then pad 4 y
  else (if (y <? 0)%Z then "-" else "+") +:+ pad 6 (Z.abs y).

(** A time value beyond 8.64e15 ms of the epoch is an invalid date, on which
    [toISOString] throws a [RangeError]. *)
Definition toISOString (t : Z) : Completion string :=
  if (8640000000000000 <? Z.abs t)%Z
  then Throw (mkJsError "RangeError" "Invalid time value")
  else
    let ms := (t `mod` 86400000)%Z in
    let '(y, m, d) := civil_from_days (t `div` 86400000)%Z in
    Normal (year_string y +:+ "-" +:+ pad 2 m +:+ "-" +:+ pad 2 d +:+ "T"
            +:+ pad 2 (ms `div` 3600000)%Z +:+ ":"
            +:+ pad 2 ((ms `div` 60000) `mod` 60)%Z +:+ ":"
            +:+ pad 2 ((ms `div` 1000) `mod` 60)%Z +:+ "."
            +:+ pad 3 (ms `mod` 1000)%Z +:+ "Z").

(** ** lib/google-calendar.ts *)

(** Lines 9 to 19: the URL with its four query parameters and the bearer
    header. The program passes [url.toString()] to [fetch]; the request here
    carries the URL itself, of which that string is a function. *)
Definition calendarRequest (accessToken now future : string) : Request :=
  let url :=
    new_URL "https://www.googleapis.com/calendar/v3/calendars/primary/events" in
  let url := URLSearchParams_set "timeMin" now url in
  let url := URLSearchParams_set "timeMax" future url in
  let url := URLSearchParams_set "singleEvents" "true" url in
  let url := URLSearchParams_set "orderBy" "startTime" url in
  mkRequest url [("Authorization", "Bearer " +:+ accessToken)].

(** Lines 27 to 34: the arrow function mapped over the items. *)
Definition normalizeEvent (event : GoogleCalendarEvent.t) : CalendarEvent.t :=
  {| CalendarEvent.id := GoogleCalendarEvent.id event;
     CalendarEvent.title :=
       js_or_str (GoogleCalendarEvent.summary event) "(No title)";
     CalendarEvent.start :=
       js_or_str
         (js_or (EventTime.dateTime (GoogleCalendarEvent.start event))
                (EventTime.date (GoogleCalendarEvent.start event))) "";
     CalendarEvent.end_ :=
       js_or_str
         (js_or (EventTime.dateTime (GoogleCalendarEvent.end_ event))
                (EventTime.date (GoogleCalendarEvent.end_ event))) "";
     CalendarEvent.description := GoogleCalendarEvent.description event;
     CalendarEvent.location := GoogleCalendarEvent.location event |}.

(** Line 22: the error thrown on a response that is not [ok]. *)
Definition apiError (status : N) : JsError :=
  Error ("Google Calendar API error: " +:+ pretty status).

Definition fetchGoogleCalendarEvents (accessToken : string)
  : Async (list CalendarEvent.t) :=
  await d <- Date_now;
  await now <- settle (toISOString d);
  await t <- Date_now;
  await future <- settle (toISOString (t + 90 * 24 * 60 * 60 * 1000));
  await res <- fetch (calendarRequest accessToken now future);
  if negb (ok res) then throw (apiError (status res))
  else
    await data <- settle (json res);
    async_ret
      (normalizeEvent <$> default [] (GoogleCalendarResponse.items data)).

(** ** app/api/events/route.ts *)

(** The body given to [NextResponse.json]. *)
Inductive ResponseBody :=
| ErrorBody (error : string)
| EventsBody (events : list CalendarEvent.t).

Record HttpResponse := mkHttpResponse {
  http_status : N;
  http_body : ResponseBody
}.

(** [NextResponse.json(body, { status })]; the status defaults to 200. *)
Definition NextResponse_json (body : ResponseBody) (status : option N)
  : HttpResponse :=
  mkHttpResponse (default 200%N status) body.

Definition GET : Async HttpResponse :=
  await session <- auth;
  let unauthorized :=
    async_ret (NextResponse_json (ErrorBody "Unauthorized") (Some 401%N)) in
  match session ≫= accessToken with
  | None => unauthorized
  | Some token =>
      if negb (truthy (Some token)) then unauthorized
      else
        try_catch
          (await events <- fetchGoogleCalendarEvents token;
           async_ret (NextResponse_json (EventsBody events) None))
          (fun error =>
             await _u <- console_error "Failed to fetch calendar events:" error;
             async_ret
               (NextResponse_json (ErrorBody "Failed to fetch events")
                  (Some 500%N)))
  end.

(** ** Worlds used in the examples *)

(** A clock that advances by one millisecond per reading from
    2024-01-01T00:00:00Z, an upstream that answers every request with [r],
    and a session holding the token "tok". *)
Definition world_answering (r : Completion Response) : World :=
  mkWorld (fun k => 1704067200000 + Z.of_nat k)%Z 0 (fun _ => r) []
    (Normal (Some (mkSession (Some "tok")))) [].

Definition meeting : GoogleCalendarEvent.t :=
  GoogleCalendarEvent.mk "1" (Some "Meeting")
    (EventTime.mk (Some "2024-01-01T10:00:00Z") None)
    (EventTime.mk (Some "2024-01-01T11:00:00Z") None) None None.

Definition untitled : GoogleCalendarEvent.t :=
  GoogleCalendarEvent.mk "2" None
    (EventTime.mk (Some "2024-01-02T10:00:00Z") None)
    (EventTime.mk (Some "2024-01-02T11:00:00Z") None) None None.

Definition allDay : GoogleCalendarEvent.t :=
  GoogleCalendarEvent.mk "3" (Some "All Day Event")
    (EventTime.mk None (Some "2024-01-03"))
    (EventTime.mk None (Some "2024-01-04")) None None.

Definition okResponse (items : option (list GoogleCalendarEvent.t)) : Response :=
  mkResponse true 200 (Normal (GoogleCalendarResponse.mk items)).

Definition failedResponse (status : N) : Response :=
  mkResponse false status (Normal (GoogleCalendarResponse.mk None)).

(** Lines 21 to 34 as a function of the response received: what
    [fetchGoogleCalendarEvents] completes with once [fetch] has resolved
    (lemma [fetch_run] below). *)
Definition responseOutcome (res : Response) : Completion (list CalendarEvent.t) :=
  if ok res then
    match json res with
    | Normal data =>
        Normal
          (normalizeEvent <$> default [] (GoogleCalendarResponse.items data))
    | Throw e => Throw e
    end
  else Throw (apiError (status res)).

(** The two instants read by a call that starts in world [w]: the time value
    of [new Date()] (line 6) and the value of [Date.now()] (line 7). *)
Definition firstReading (w : World) : Z := clock w (reads w).
Definition secondReading (w : World) : Z := clock w (S (reads w)).

Definition ninetyDays : Z := 90 * 24 * 60 * 60 * 1000.

(** A body that is not JSON: [json()] rejects with a [SyntaxError]. *)
Definition syntaxError : JsError :=
  mkJsError "SyntaxError" "Unexpected token < in JSON at position 0".

Definition htmlResponse : Response := mkResponse true 200 (Throw syntaxError).

(** The request issued from [world_answering r] for the token [t]. *)
Definition exampleRequest (t : string) : Request :=
  calendarRequest t "2024-01-01T00:00:00.000Z" "2024-03-31T00:00:00.001Z".


(** A world in which [auth()] rejects. *)
Definition authError : JsError := Error "session lookup failed".

Definition world_auth_rejecting : World :=
  mkWorld (fun k => 1704067200000 + Z.of_nat k)%Z 0
    (fun _ => Normal (okResponse None)) [] (Throw authError) [].

(** A world with the session [s] and an upstream answering [r]. *)
Definition world_with_session (s : option Session) (r : Completion Response)
  : World :=
  mkWorld (fun k => 1704067200000 + Z.of_nat k)%Z 0 (fun _ => r) []
    (Normal s) [].

Definition unauthorizedResponse : HttpResponse :=
  mkHttpResponse 401 (ErrorBody "Unauthorized").

Definition failedToFetchResponse : HttpResponse :=
  mkHttpResponse 500 (ErrorBody "Failed to fetch events").

(** ** The Event Reconciler of the design document *)

Module Reconciler.

Inductive Source := local | google | icloud.

(** Modelled from the spec: the normalized event of the data model (section
    3), which the repository does not declare; its [CalendarEvent] interface
    has six of these fields. *)
Record CalendarEvent := mkEvent {
  id : string;
  userId : string;
  title : string;
  startAt : string;
  endAt : string;
  description : option string;
  location : option string;
  source : Source;
  sourceEventId : option string;
  updatedAt : Z
}.

(** Modelled from the spec: the changeset [{toInsert, toUpdate, toDelete}]
    of section 4.2, which the repository does not declare. Inserts and
    updates carry the events, deletions the keys. *)
Record Changeset := mkChangeset {
  toInsert : gmap string CalendarEvent;
  toUpdate : gmap string CalendarEvent;
  toDelete : gset string
}.

Definition emptyChangeset : Changeset := mkChangeset ∅ ∅ ∅.

(** The fields whose difference makes an update: title, start, end,
    description, location. *)
Definition sameFields (a b : CalendarEvent) : bool :=
  String.eqb (title a) (title b)
  && String.eqb (startAt a) (startAt b)
  && String.eqb (endAt a) (endAt b)
  && bool_decide (description a = description b)
  && bool_decide (location a = location b).

Definition differsFromStored (stored : gmap string CalendarEvent)
    (key : string) (fetched : CalendarEvent) : bool :=
  match stored !! key with
  | Some s => negb (sameFields s fetched)
  | None => false
  end.

(** Modelled from the spec: the Event Reconciler of section 4.2, which the
    repository does not implement. The stored events of one [(userId,
    source)] and the fetched events are finite maps keyed by the matching
    key [sourceEventId]; local events have no [sourceEventId] and so are in
    neither. Fetched and not stored is an insert; in both with a difference
    in a compared field is an update; stored and not fetched is a delete. *)
Definition reconcile (stored fetched : gmap string CalendarEvent) : Changeset :=
  {| toInsert := filter (λ kv, stored !! kv.1 = None) fetched;
     toUpdate := filter (λ kv, differsFromStored stored kv.1 kv.2 = true) fetched;
     toDelete := dom stored ∖ dom fetched |}.

Definition refresh (now : Z) (e : CalendarEvent) : CalendarEvent :=
  mkEvent (id e) (userId e) (title e) (startAt e) (endAt e) (description e)
    (location e) (source e) (sourceEventId e) now.

(** Modelled from the spec: the application of a changeset ([applyChangeset]
    of section 6), which the repository does not implement. An update
    replaces the stored event by the fetched one with [updatedAt] refreshed;
    a deleted key is removed. *)
Definition applyChangeset (now : Z) (cs : Changeset)
    (stored : gmap string CalendarEvent) : gmap string CalendarEvent :=
  toInsert cs ∪ (refresh now <$> toUpdate cs)
    ∪ filter (λ kv, kv.1 ∉ toDelete cs) stored.

Definition googleEvent (key title start : string) (stamp : Z) : CalendarEvent :=
  mkEvent ("local-id-" +:+ key) "user" title start "" None None google
    (Some key) stamp.

End Reconciler.

(** ** Rendered markup *)

(** What a component returns: host elements with their key, props and
    children, text, and elements of components that are rendered later
    ([<AuthButton />], which is async and calls [auth()] itself). *)
#[warnings="-register-all"]
Inductive Node :=
| Element (tag : string) (key : option string)
    (props : list (string * string)) (children : list Node)
| Text (s : string)
| ComponentElement (name : string).

(** [{s}] as a child: React renders no node for the empty string. *)
Definition jsx_text (s : string) : list Node :=
  if String.eqb s "" then [] else [Text s].

(** [{v && markup}]: nothing when [v] is undefined or empty. *)
Definition jsx_and (v : option string) (markup : string -> Node) : list Node :=
  match v with
  | Some s => if String.eqb s "" then [] else [markup s]
  | None => []
  end.

(** A node and all the nodes below it, in document order. *)
Fixpoint descendants (n : Node) : list Node :=
  n :: match n with
       | Element _ _ _ children => flat_map descendants children
       | _ => []
       end.

Definition prop (name : string) (n : Node) : option string :=
  match n with
  | Element _ _ props _ => snd <$> List.find (has_key name) props
  | _ => None
  end.

Definition keyOf (n : Node) : option string :=
  match n with
  | Element _ k _ _ => k
  | _ => None
  end.

Definition has_prop (name value : string) (n : Node) : bool :=
  match prop name n with
  | Some v => String.eqb v value
  | None => false
  end.

Definition has_tag (tag : string) (n : Node) : bool :=
  match n with
  | Element t _ _ _ => String.eqb t tag
  | _ => false
  end.

(** The elements below (or at) [n] whose [role] attribute, [className] or
    tag is the given one, in document order. *)
Definition byRole (role : string) (n : Node) : list Node :=
  List.filter (has_prop "role" role) (descendants n).

Definition byClass (class : string) (n : Node) : list Node :=
  List.filter (has_prop "className" class) (descendants n).

Definition byTag (tag : string) (n : Node) : list Node :=
  List.filter (has_tag tag) (descendants n).

(** The text of a node: the texts below it, concatenated. *)
Definition textOf (n : Node) : string :=
  foldr (λ d acc, match d with Text s => s +:+ acc | _ => acc end) ""
    (descendants n).

(** ** components/Calendar.tsx, app/calendar/page.tsx, app/page.tsx *)

Section Rendering.

(** [new Date(s).toLocaleDateString(undefined, { weekday: 'long', ... })]:
    the rendering of a start string in the locale and time zone of the
    runtime. It does not throw (an unparsable string gives "Invalid
    Date"). *)
Variable toLocaleDateString : string -> string.

(** Lines 15 to 28 of Calendar.tsx: the article of one event. *)
Definition eventArticle (event : CalendarEvent.t) : Node :=
  Element "article" (Some (CalendarEvent.id event))
    [("role", "listitem"); ("className", "calendar-event")]
    ([ Element "h3" None [] (jsx_text (CalendarEvent.title event));
       Element "time" None [("dateTime", CalendarEvent.start event)]
         (jsx_text (toLocaleDateString (CalendarEvent.start event))) ]
     ++ jsx_and (CalendarEvent.location event)
          (λ location, Element "p" None [("className", "location")]
                         (jsx_text location))).

Definition Calendar (events : list CalendarEvent.t) : Node :=
  if (length events =? 0)%nat
  then Element "p" None [] [Text "No upcoming events."]
  else
    Element "div" None
      [("role", "list"); ("aria-label", "Calendar events");
       ("className", "calendar-list")]
      (eventArticle <$> events).

(** [redirect(url)] of next/navigation never returns: it throws the error by
    which the framework carries the target. The error is written here with
    the name NEXT_REDIRECT and the target as its message. *)
Definition redirectError (url : string) : JsError := mkJsError "NEXT_REDIRECT" url.

Definition redirect {A} (url : string) : Async A := throw (redirectError url).

(** app/calendar/page.tsx *)
Definition CalendarPage : Async Node :=
  await session <- auth;
  match session ≫= accessToken with
  | None => redirect "/"
  | Some token =>
      if negb (truthy (Some token)) then redirect "/"
      else
        await events <- fetchGoogleCalendarEvents token;
        async_ret
          (Element "main" None []
             [ Element "header" None []
                 [ Element "h1" None [] [Text "Your Calendar"];
                   ComponentElement "AuthButton" ];
               Calendar events ])
  end.

End Rendering.

(** app/page.tsx *)
Definition Home : Async Node :=
  await session <- auth;
  let landing :=
    async_ret
      (Element "main" None []
         [ Element "h1" None [] [Text "LocalCal"];
           Element "p" None []
             [Text "Connect your Google Calendar to view your events."];
           ComponentElement "AuthButton" ]) in
  match session ≫= accessToken with
  | None => landing
  | Some token =>
      if truthy (Some token) then redirect "/calendar" else landing
  end.

(** ** lib/auth.ts: the callbacks of the configuration *)

(** What the callbacks read of the [account] of a sign-in. *)
Record Account := mkAccount {
  access_token : option string
}.

(** What the callbacks read and write of the JWT. *)
Record JWT := mkJWT {
  jwt_accessToken : option string
}.

(** [jwt({ token, account })]: [account] is present on sign-in only. *)
Definition jwt_callback (token : JWT) (account : option Account) : JWT :=
  match account with
  | Some a => mkJWT (access_token a)
  | None => token
  end.

(** [session({ session, token })] *)
Definition session_callback (session : Session) (token : JWT) : Session :=
  mkSession (jwt_accessToken token).

(** The JWT after a series of [jwt] invocations, oldest first. *)
Definition jwt_after (token : JWT) (accounts : list (option Account)) : JWT :=
  foldl jwt_callback token accounts.

(** Values used in the examples. *)
Definition en_format (s : string) : string := "on " +:+ s.

Definition officeEvent : CalendarEvent.t :=
  CalendarEvent.mk "1" "Test Event" "2024-01-01T10:00:00Z"
    "2024-01-01T11:00:00Z" None (Some "Office").

Definition secondEvent : CalendarEvent.t :=
  CalendarEvent.mk "2" "Second Event" "2024-01-02T14:00:00Z"
    "2024-01-02T15:00:00Z" None None.

Example iso1 : toISOString 1704067200000 = Normal "2024-01-01T00:00:00.000Z".
Proof. vm_compute. reflexivity. Qed.
Example iso2 : toISOString 0 = Normal "1970-01-01T00:00:00.000Z".
Proof. vm_compute. reflexivity. Qed.
Example iso3 : toISOString 1709251199999 = Normal "2024-02-29T23:59:59.999Z".
Proof. vm_compute. reflexivity. Qed.
Example iso4 : toISOString (-1) = Normal "1969-12-31T23:59:59.999Z".
Proof. vm_compute. reflexivity. Qed.
Example iso5 : toISOString 8640000000000000 = Normal "+275760-09-13T00:00:00.000Z".
Proof. vm_compute. reflexivity. Qed.
Example iso6 : toISOString (-62198755200000) = Normal "-000001-01-01T00:00:00.000Z".
Proof. vm_compute. reflexivity. Qed.
Example iso7 : toISOString 1762084800123 = Normal "2025-11-02T12:00:00.123Z".
Proof. vm_compute. reflexivity. Qed.

(** The tests of google-calendar.test.ts. *)

Example test_fetches_and_transforms :
  (fetchGoogleCalendarEvents "fake-token"
     (world_answering (Normal (okResponse (Some [meeting]))))).1
  = Normal [CalendarEvent.mk "1" "Meeting" "2024-01-01T10:00:00Z"
              "2024-01-01T11:00:00Z" None None].
Proof. vm_compute. reflexivity. Qed.

Example test_throws_on_non_ok :
  (fetchGoogleCalendarEvents "bad-token"
     (world_answering (Normal (failedResponse 401)))).1
  = Throw (Error "Google Calendar API error: 401").
Proof. vm_compute. reflexivity. Qed.

Example test_without_summary :
  CalendarEvent.title <$>
    match (fetchGoogleCalendarEvents "fake-token"
             (world_answering (Normal (okResponse (Some [untitled]))))).1 with
    | Normal events => events
    | Throw _ => []
    end
  = ["(No title)"].
Proof. vm_compute. reflexivity. Qed.

Example test_all_day :
  (fun e => (CalendarEvent.start e, CalendarEvent.end_ e)) <$>
    match (fetchGoogleCalendarEvents "fake-token"
             (world_answering (Normal (okResponse (Some [allDay]))))).1 with
    | Normal events => events
    | Throw _ => []
    end
  = [("2024-01-03", "2024-01-04")].
Proof. vm_compute. reflexivity. Qed.

Example test_request :
  exchanges (fetchGoogleCalendarEvents "fake-token"
     (world_answering (Normal (okResponse None)))).2
  = [(mkRequest
        (mkURL "https://www.googleapis.com/calendar/v3/calendars/primary/events"
           [("timeMin", "2024-01-01T00:00:00.000Z");
            ("timeMax", "2024-03-31T00:00:00.001Z");
            ("singleEvents", "true");
            ("orderBy", "startTime")])
        [("Authorization", "Bearer fake-token")],
      Normal (okResponse None))].
Proof. vm_compute. reflexivity. Qed.

(** * The shape of a run of [fetchGoogleCalendarEvents] *)

Lemma fetch_run token w :
  fetchGoogleCalendarEvents token w =
  match toISOString (firstReading w) with
  | Throw e => (Throw e, tick w)
  | Normal now =>
      match toISOString (secondReading w + ninetyDays) with
      | Throw e => (Throw e, tick (tick w))
      | Normal future =>
          let q := calendarRequest token now future in
          (match network w q with
           | Normal res => responseOutcome res
           | Throw e => Throw e
           end,
           log_exchange q (network w q) (tick (tick w)))
      end
  end.
Proof.
  unfold fetchGoogleCalendarEvents, async_bind, Date_now, settle, fetch,
    firstReading, secondReading, ninetyDays.
  destruct (toISOString (clock w (reads w))) as [now|e]; [|done].
  cbn [tick reads clock].
  destruct (toISOString _) as [future|e]; [|done].
  cbn [tick network]. cbv zeta.
  destruct (network w _) as [res|e]; [|done].
  unfold responseOutcome, throw, async_ret.
  destruct (ok res); cbn [negb]; [|done].
  by destruct (json res).
Qed.

Lemma app_singleton_neq {A} (l : list A) (x : A) : l ≠ l ++ [x].
Proof.
  intros H. apply (f_equal length) in H. rewrite length_app in H.
  cbn in H. lia.
Qed.

(** A run that adds the exchange [(q, r)] to the log read the clock twice,
    built [q] from the two readings, and completed as [r] dictates. *)
Lemma fetch_exchange token w q r :
  exchanges (fetchGoogleCalendarEvents token w).2 = exchanges w ++ [(q, r)] →
  ∃ now future,
    toISOString (firstReading w) = Normal now
    ∧ toISOString (secondReading w + ninetyDays) = Normal future
    ∧ q = calendarRequest token now future
    ∧ r = network w q
    ∧ (fetchGoogleCalendarEvents token w).1 =
        match r with
        | Normal res => responseOutcome res
        | Throw e => Throw e
        end.
Proof.
  rewrite fetch_run.
  destruct (toISOString (firstReading w)) as [now|e].
  2:{ cbn. intros H. by apply app_singleton_neq in H. }
  destruct (toISOString (secondReading w + ninetyDays)) as [future|e].
  2:{ cbn. intros H. by apply app_singleton_neq in H. }
  cbn. intros H. apply app_inv_head in H. injection H as <- <-.
  by exists now, future.
Qed.

(** A call issues at most one request. *)
Lemma fetch_at_most_one_request token w :
  exchanges (fetchGoogleCalendarEvents token w).2 = exchanges w
  ∨ ∃ q r, exchanges (fetchGoogleCalendarEvents token w).2 = exchanges w ++ [(q, r)].
Proof.
  rewrite fetch_run.
  destruct (toISOString (firstReading w)); [|by left].
  destruct (toISOString (secondReading w + ninetyDays)); [|by left].
  right. by eexists _, _.
Qed.

Lemma responseOutcome_decoded res data :
  ok res = true → json res = Normal data →
  responseOutcome res =
    Normal (normalizeEvent <$> default [] (GoogleCalendarResponse.items data)).
Proof. intros Hok Hjson. unfold responseOutcome. by rewrite Hok, Hjson. Qed.

(** The decimal rendering of the status determines the status. *)
Lemma apiError_inj s1 s2 : apiError s1 = apiError s2 → s1 = s2.
Proof.
  unfold apiError, Error. intros H. injection H as H.
  by apply (inj pretty).
Qed.

(** A run that received a decodable response with a success status returns
    the normalized items, in the order of the body. *)
Lemma fetch_decoded token w q res data :
  exchanges (fetchGoogleCalendarEvents token w).2
    = exchanges w ++ [(q, Normal res)] →
  ok res = true →
  json res = Normal data →
  (fetchGoogleCalendarEvents token w).1 =
    Normal (normalizeEvent <$> default [] (GoogleCalendarResponse.items data)).
Proof.
  intros Hrun Hok Hjson.
  destruct (fetch_exchange _ _ _ _ Hrun) as (now & future & _ & _ & _ & _ & ->).
  by apply responseOutcome_decoded.
Qed.

Lemma example_exchange t r :
  exchanges (fetchGoogleCalendarEvents t (world_answering r)).2
  = exchanges (world_answering r) ++ [(exampleRequest t, r)].
Proof. rewrite fetch_run. vm_compute. reflexivity. Qed.

(** * The status check (lines 21 to 23) *)

(** C1, as stated, fails: a response with a success status whose body is not
    JSON makes [fetchGoogleCalendarEvents] throw the [SyntaxError] of
    [res.json()]. *)
Lemma ok_response_undecodable_body_throws :
  let run := fetchGoogleCalendarEvents "tok" (world_answering (Normal htmlResponse)) in
  exchanges run.2 = [(exampleRequest "tok", Normal htmlResponse)]
  ∧ ok htmlResponse = true
  ∧ status htmlResponse = 200%N
  ∧ run.1 = Throw syntaxError.
Proof. vm_compute. done. Qed.

(** C1, amended: on every response that is not [ok] the call throws an error
    whose message ends in the decimal status code, from which the status can
    be read back; on every [ok] response the status check does not throw, and
    the call completes as the decoding of the body does: it returns events
    when [res.json()] resolves and throws what [res.json()] rejects with. *)
Theorem status_check_decides token w q res :
  exchanges (fetchGoogleCalendarEvents token w).2
    = exchanges w ++ [(q, Normal res)] →
  (ok res = false →
     (fetchGoogleCalendarEvents token w).1
       = Throw (Error ("Google Calendar API error: " +:+ pretty (status res)))
     ∧ ∀ s, apiError s = apiError (status res) → s = status res)
  ∧ (ok res = true →
     (∀ data, json res = Normal data →
        ∃ events, (fetchGoogleCalendarEvents token w).1 = Normal events)
     ∧ (∀ e, json res = Throw e →
        (fetchGoogleCalendarEvents token w).1 = Throw e)).
Proof.
  intros Hrun.
  destruct (fetch_exchange _ _ _ _ Hrun) as (now & future & _ & _ & _ & _ & ->).
  unfold responseOutcome. split; intros ->.
  - split; [done|]. intros s. apply apiError_inj.
  - split.
    + intros data ->. by eexists.
    + by intros e ->.
Qed.

Lemma status_check_decides_witness :
  let w := world_answering (Normal (failedResponse 401)) in
  exchanges (fetchGoogleCalendarEvents "bad-token" w).2
    = exchanges w ++ [(exampleRequest "bad-token", Normal (failedResponse 401))]
  ∧ (fetchGoogleCalendarEvents "bad-token" w).1
    = Throw (Error "Google Calendar API error: 401").
Proof.
  split; [vm_compute; reflexivity|].
  refine (proj1 (proj1 (status_check_decides "bad-token"
    (world_answering (Normal (failedResponse 401)))
    (exampleRequest "bad-token") (failedResponse 401) _) _)).
  - vm_compute; reflexivity.
  - reflexivity.
Defined.

(** * Normalization (lines 27 to 34) *)

Lemma js_or_str_truthy s d : s ≠ "" → js_or_str (Some s) d = s.
Proof. intros Hs. unfold js_or_str. by apply String.eqb_neq in Hs as ->. Qed.

Lemma js_or_str_falsy v d : truthy v = false → js_or_str v d = d.
Proof.
  destruct v as [s|]; [|done]. cbn.
  by destruct (String.eqb s "").
Qed.

Lemma start_or_date_only d : js_or_str (js_or None (Some d)) "" = d.
Proof.
  unfold js_or. cbn. destruct (String.eqb d "") eqn:E; [|done].
  by apply String.eqb_eq in E.
Qed.


(** The returned list is the body's list, normalized position by position. *)
Lemma fetch_pointwise token w q res data :
  exchanges (fetchGoogleCalendarEvents token w).2
    = exchanges w ++ [(q, Normal res)] →
  ok res = true →
  json res = Normal data →
  ∃ events,
    (fetchGoogleCalendarEvents token w).1 = Normal events
    ∧ ∀ i, events !! i
           = normalizeEvent <$> default [] (GoogleCalendarResponse.items data) !! i.
Proof.
  intros Hrun Hok Hjson. eexists. split.
  - by eapply fetch_decoded.
  - intros i. apply list_lookup_fmap.
Qed.




(** C3: an upstream event without a summary, or with an empty one, is
    returned with the title "(No title)"; an upstream event with a summary
    that is not empty is returned with that summary as its title. *)
Theorem missing_summary_titled_no_title token w q res data :
  exchanges (fetchGoogleCalendarEvents token w).2
    = exchanges w ++ [(q, Normal res)] →
  ok res = true →
  json res = Normal data →
  ∃ events,
    (fetchGoogleCalendarEvents token w).1 = Normal events
    ∧ ∀ i g, default [] (GoogleCalendarResponse.items data) !! i = Some g →
        ∃ e, events !! i = Some e
          ∧ (GoogleCalendarEvent.summary g = None
             ∨ GoogleCalendarEvent.summary g = Some "" →
             CalendarEvent.title e = "(No title)")
          ∧ (∀ s, GoogleCalendarEvent.summary g = Some s → s ≠ "" →
                  CalendarEvent.title e = s).
Proof.
  intros Hrun Hok Hjson.
  destruct (fetch_pointwise _ _ _ _ _ Hrun Hok Hjson) as (events & Hout & Hpt).
  exists events. split; [done|]. intros i g Hg.
  exists (normalizeEvent g). rewrite Hpt, Hg. split; [done|].
  cbn. split.
  - by intros [-> | ->].
  - intros s -> Hs. by apply js_or_str_truthy.
Qed.

Lemma missing_summary_titled_no_title_witness :
  let r := okResponse (Some [untitled; meeting]) in
  let w := world_answering (Normal r) in
  exchanges (fetchGoogleCalendarEvents "tok" w).2
    = exchanges w ++ [(exampleRequest "tok", Normal r)]
  ∧ ok r = true
  ∧ json r = Normal (GoogleCalendarResponse.mk (Some [untitled; meeting]))
  ∧ ∃ events,
      (fetchGoogleCalendarEvents "tok" w).1 = Normal events
      ∧ ∃ e0 e1, events !! 0%nat = Some e0 ∧ events !! 1%nat = Some e1
             ∧ CalendarEvent.title e0 = "(No title)"
             ∧ CalendarEvent.title e1 = "Meeting".
Proof.
  split; [vm_compute; reflexivity|]. split; [reflexivity|].
  split; [reflexivity|].
  destruct (missing_summary_titled_no_title "tok"
    (world_answering (Normal (okResponse (Some [untitled; meeting]))))
    (exampleRequest "tok") (okResponse (Some [untitled; meeting]))
    (GoogleCalendarResponse.mk (Some [untitled; meeting])))
    as (events & Hout & Hall).
  - vm_compute; reflexivity.
  - reflexivity.
  - reflexivity.
  - exists events. split; [exact Hout|].
    destruct (Hall 0%nat untitled) as (e0 & He0 & Hnone & _); [reflexivity|].
    destruct (Hall 1%nat meeting) as (e1 & He1 & _ & Hsome); [reflexivity|].
    exists e0, e1. split; [exact He0|]. split; [exact He1|]. split.
    + apply Hnone. left; reflexivity.
    + apply Hsome; [reflexivity|discriminate].
Defined.

(** * One kind of failure (line 22) *)

(** C4, as stated, fails: the error thrown on a 401 is a plain [Error], as is
    the error thrown on a 503; no auth-expired kind of failure exists, and
    the two errors are of the same kind. *)
Lemma unauthorized_is_generic_error :
  let run401 :=
    fetchGoogleCalendarEvents "bad-token"
      (world_answering (Normal (failedResponse 401))) in
  let run503 :=
    fetchGoogleCalendarEvents "bad-token"
      (world_answering (Normal (failedResponse 503))) in
  run401.1 = Throw (mkJsError "Error" "Google Calendar API error: 401")
  ∧ run503.1 = Throw (mkJsError "Error" "Google Calendar API error: 503")
  ∧ ¬ ∃ e401 e503,
        run401.1 = Throw e401 ∧ run503.1 = Throw e503
        ∧ err_name e401 ≠ err_name e503.
Proof.
  split; [vm_compute; reflexivity|]. split; [vm_compute; reflexivity|].
  intros (e401 & e503 & H401 & H503 & Hne).
  vm_compute in H401, H503. injection H401 as <-. injection H503 as <-.
  by apply Hne.
Qed.

(** C4, amended: every response that is not [ok], a 401 included, makes the
    call throw an error of the one kind [Error]; the failures of two such
    responses differ exactly when their status codes differ, and then only in
    the status code at the end of the message. *)
Theorem one_failure_kind token w q res token' w' q' res' :
  exchanges (fetchGoogleCalendarEvents token w).2
    = exchanges w ++ [(q, Normal res)] →
  exchanges (fetchGoogleCalendarEvents token' w').2
    = exchanges w' ++ [(q', Normal res')] →
  ok res = false →
  ok res' = false →
  ∃ e e',
    (fetchGoogleCalendarEvents token w).1 = Throw e
    ∧ (fetchGoogleCalendarEvents token' w').1 = Throw e'
    ∧ err_name e = "Error"
    ∧ err_name e' = "Error"
    ∧ err_message e = "Google Calendar API error: " +:+ pretty (status res)
    ∧ err_message e' = "Google Calendar API error: " +:+ pretty (status res')
    ∧ (e = e' ↔ status res = status res').
Proof.
  intros Hrun Hrun' Hok Hok'.
  destruct (fetch_exchange _ _ _ _ Hrun) as (? & ? & _ & _ & _ & _ & ->).
  destruct (fetch_exchange _ _ _ _ Hrun') as (? & ? & _ & _ & _ & _ & ->).
  unfold responseOutcome. rewrite Hok, Hok'.
  eexists _, _. repeat split.
  - apply apiError_inj.
  - by intros ->.
Qed.

Lemma one_failure_kind_witness :
  let w := world_answering (Normal (failedResponse 401)) in
  let w' := world_answering (Normal (failedResponse 503)) in
  exchanges (fetchGoogleCalendarEvents "t" w).2
    = exchanges w ++ [(exampleRequest "t", Normal (failedResponse 401))]
  ∧ exchanges (fetchGoogleCalendarEvents "t" w').2
    = exchanges w' ++ [(exampleRequest "t", Normal (failedResponse 503))]
  ∧ ok (failedResponse 401) = false
  ∧ ok (failedResponse 503) = false
  ∧ ∃ e e',
      (fetchGoogleCalendarEvents "t" w).1 = Throw e
      ∧ (fetchGoogleCalendarEvents "t" w').1 = Throw e'
      ∧ err_name e = err_name e'.
Proof.
  split; [vm_compute; reflexivity|]. split; [vm_compute; reflexivity|].
  split; [reflexivity|]. split; [reflexivity|].
  destruct (one_failure_kind
    "t" (world_answering (Normal (failedResponse 401)))
    (exampleRequest "t") (failedResponse 401)
    "t" (world_answering (Normal (failedResponse 503)))
    (exampleRequest "t") (failedResponse 503))
    as (e & e' & H & H' & Hn & Hn' & _).
  - vm_compute; reflexivity.
  - vm_compute; reflexivity.
  - reflexivity.
  - reflexivity.
  - exists e, e'. split; [exact H|]. split; [exact H'|].
    rewrite Hn, Hn'. reflexivity.
Defined.

(** * The shape of a returned event (lines 27 to 34) *)

(** C5, as stated, fails: a returned event has neither a [source] nor a
    [sourceEventId] property. *)
Lemma returned_event_has_no_source :
  let run :=
    fetchGoogleCalendarEvents "tok"
      (world_answering (Normal (okResponse (Some [meeting])))) in
  ∃ e, run.1 = Normal [e]
       ∧ CalendarEvent.hasProperty "source" e = false
       ∧ CalendarEvent.hasProperty "sourceEventId" e = false.
Proof. eexists. split; [vm_compute; reflexivity|]. done. Qed.

(** C5, amended: every returned event has exactly the properties [id],
    [title], [start], [end], [description] and [location]; it has no [source]
    and no [sourceEventId] property, and its [id] is the id the upstream gave
    the event. *)
Theorem returned_event_properties token w q res data :
  exchanges (fetchGoogleCalendarEvents token w).2
    = exchanges w ++ [(q, Normal res)] →
  ok res = true →
  json res = Normal data →
  ∃ events,
    (fetchGoogleCalendarEvents token w).1 = Normal events
    ∧ ∀ i e, events !! i = Some e →
        (CalendarEvent.properties e).*1
          = ["id"; "title"; "start"; "end"; "description"; "location"]
        ∧ CalendarEvent.hasProperty "source" e = false
        ∧ CalendarEvent.hasProperty "sourceEventId" e = false
        ∧ ∃ g, default [] (GoogleCalendarResponse.items data) !! i = Some g
               ∧ CalendarEvent.id e = GoogleCalendarEvent.id g.
Proof.
  intros Hrun Hok Hjson.
  destruct (fetch_pointwise _ _ _ _ _ Hrun Hok Hjson) as (events & Hout & Hpt).
  exists events. split; [done|]. intros i e He.
  repeat split.
  rewrite Hpt in He.
  destruct (default [] (GoogleCalendarResponse.items data) !! i) as [g|];
    [|done].
  injection He as <-. by exists g.
Qed.

Lemma returned_event_properties_witness :
  let r := okResponse (Some [meeting]) in
  let w := world_answering (Normal r) in
  exchanges (fetchGoogleCalendarEvents "tok" w).2
    = exchanges w ++ [(exampleRequest "tok", Normal r)]
  ∧ ok r = true
  ∧ json r = Normal (GoogleCalendarResponse.mk (Some [meeting]))
  ∧ ∃ events,
      (fetchGoogleCalendarEvents "tok" w).1 = Normal events
      ∧ ∀ i e, events !! i = Some e →
          CalendarEvent.hasProperty "sourceEventId" e = false.
Proof.
  split; [vm_compute; reflexivity|]. split; [reflexivity|].
  split; [reflexivity|].
  destruct (returned_event_properties "tok"
    (world_answering (Normal (okResponse (Some [meeting]))))
    (exampleRequest "tok") (okResponse (Some [meeting]))
    (GoogleCalendarResponse.mk (Some [meeting])))
    as (events & Hout & Hall).
  - vm_compute; reflexivity.
  - reflexivity.
  - reflexivity.
  - exists events. split; [exact Hout|].
    intros i e He. apply (Hall i e He).
Defined.

(** * The request (lines 6 to 19) *)

(** C6: a request issued by [fetchGoogleCalendarEvents] has [timeMin] set to
    the current time, as read by [new Date()] and written by [toISOString],
    and [timeMax] set to the current time, as read by [Date.now()], plus
    90 * 24 * 60 * 60 * 1000 milliseconds, written by [toISOString]. *)
Theorem request_window token w q r :
  exchanges (fetchGoogleCalendarEvents token w).2 = exchanges w ++ [(q, r)] →
  ∃ now future,
    toISOString (firstReading w) = Normal now
    ∧ toISOString (secondReading w + 90 * 24 * 60 * 60 * 1000) = Normal future
    ∧ URLSearchParams_get "timeMin" (req_url q) = Some now
    ∧ URLSearchParams_get "timeMax" (req_url q) = Some future.
Proof.
  intros Hrun.
  destruct (fetch_exchange _ _ _ _ Hrun) as (now & future & Hn & Hf & -> & _).
  by exists now, future.
Qed.

Lemma request_window_witness :
  let w := world_answering (Normal (okResponse None)) in
  exchanges (fetchGoogleCalendarEvents "tok" w).2
    = exchanges w ++ [(exampleRequest "tok", Normal (okResponse None))]
  ∧ ∃ now future,
      toISOString 1704067200000 = Normal now
      ∧ toISOString (1704067200001 + 90 * 24 * 60 * 60 * 1000) = Normal future
      ∧ URLSearchParams_get "timeMin" (req_url (exampleRequest "tok")) = Some now
      ∧ URLSearchParams_get "timeMax" (req_url (exampleRequest "tok"))
        = Some future.
Proof.
  split; [vm_compute; reflexivity|].
  apply (request_window "tok" (world_answering (Normal (okResponse None)))
           (exampleRequest "tok") (Normal (okResponse None))).
  vm_compute; reflexivity.
Defined.

(** C7: every request issued by [fetchGoogleCalendarEvents], whatever the
    upstream answers, has [singleEvents=true] and [orderBy=startTime]. When
    the answer is a decodable success response, the events returned are the
    items of the body in the provider's order: the event at each position
    has the id of the item at that position and, as its start, the start the
    provider sent for it ([dateTime], or else [date]); so whenever the items
    come sorted by that start, under any relation on start strings, the
    returned events are sorted by start. *)
Theorem request_ordering_and_order_kept token w q r :
  exchanges (fetchGoogleCalendarEvents token w).2 = exchanges w ++ [(q, r)] →
  URLSearchParams_get "singleEvents" (req_url q) = Some "true"
  ∧ URLSearchParams_get "orderBy" (req_url q) = Some "startTime"
  ∧ ∀ res data,
      r = Normal res →
      ok res = true →
      json res = Normal data →
      ∃ events,
        (fetchGoogleCalendarEvents token w).1 = Normal events
        ∧ length events = length (default [] (GoogleCalendarResponse.items data))
        ∧ CalendarEvent.id <$> events
          = GoogleCalendarEvent.id
              <$> default [] (GoogleCalendarResponse.items data)
        ∧ CalendarEvent.start <$> events
          = (λ g, js_or_str
                    (js_or (EventTime.dateTime (GoogleCalendarEvent.start g))
                           (EventTime.date (GoogleCalendarEvent.start g))) "")
              <$> default [] (GoogleCalendarResponse.items data)
        ∧ ∀ R : relation string,
            Sorted
              (λ g1 g2,
                 R (js_or_str
                      (js_or (EventTime.dateTime (GoogleCalendarEvent.start g1))
                             (EventTime.date (GoogleCalendarEvent.start g1))) "")
                   (js_or_str
                      (js_or (EventTime.dateTime (GoogleCalendarEvent.start g2))
                             (EventTime.date (GoogleCalendarEvent.start g2))) ""))
              (default [] (GoogleCalendarResponse.items data)) →
            Sorted (λ e1 e2, R (CalendarEvent.start e1) (CalendarEvent.start e2))
              events.
Proof.
  intros Hrun.
  destruct (fetch_exchange _ _ _ _ Hrun) as (now & future & _ & _ & Hq & _).
  split; [by rewrite Hq|]. split; [by rewrite Hq|].
  intros res data -> Hok Hjson.
  eexists. split; [by eapply fetch_decoded|].
  split; [apply length_fmap|].
  split; [by rewrite <- list_fmap_compose|].
  split; [by rewrite <- list_fmap_compose|].
  intros R HR. eapply Sorted_fmap; [|exact HR]. by intros g1 g2.
Qed.

Lemma request_ordering_and_order_kept_witness :
  let r := okResponse (Some [meeting; untitled; allDay]) in
  let w := world_answering (Normal r) in
  exchanges (fetchGoogleCalendarEvents "tok" w).2
    = exchanges w ++ [(exampleRequest "tok", Normal r)]
  ∧ URLSearchParams_get "singleEvents" (req_url (exampleRequest "tok"))
    = Some "true"
  ∧ URLSearchParams_get "orderBy" (req_url (exampleRequest "tok"))
    = Some "startTime"
  ∧ ∃ events,
      (fetchGoogleCalendarEvents "tok" w).1 = Normal events
      ∧ CalendarEvent.id <$> events = ["1"; "2"; "3"]
      ∧ CalendarEvent.start <$> events
        = ["2024-01-01T10:00:00Z"; "2024-01-02T10:00:00Z"; "2024-01-03"].
Proof.
  split; [vm_compute; reflexivity|].
  destruct (request_ordering_and_order_kept "tok"
    (world_answering (Normal (okResponse (Some [meeting; untitled; allDay]))))
    (exampleRequest "tok")
    (Normal (okResponse (Some [meeting; untitled; allDay]))))
    as (Hsingle & Horder & Hkept).
  - vm_compute; reflexivity.
  - split; [exact Hsingle|]. split; [exact Horder|].
    destruct (Hkept (okResponse (Some [meeting; untitled; allDay]))
                (GoogleCalendarResponse.mk (Some [meeting; untitled; allDay]))
                eq_refl eq_refl eq_refl)
      as (events & Hout & _ & Hid & Hstart & _).
    exists events. split; [exact Hout|]. split; [exact Hid|exact Hstart].
Defined.

(** A failed exchange is a request issued all the same. *)
Example request_ordering_on_failure :
  let w := world_answering (Normal (failedResponse 503)) in
  ∃ q,
    exchanges (fetchGoogleCalendarEvents "tok" w).2
      = exchanges w ++ [(q, Normal (failedResponse 503))]
    ∧ URLSearchParams_get "singleEvents" (req_url q) = Some "true"
    ∧ URLSearchParams_get "orderBy" (req_url q) = Some "startTime".
Proof. exists (exampleRequest "tok"). vm_compute. done. Qed.

(** * A body without items (line 27) *)

(** C9: on a response with a success status whose JSON body has no [items]
    (absent or null), [fetchGoogleCalendarEvents] returns the empty list and
    does not throw. *)
Theorem missing_items_empty_list token w q res data :
  exchanges (fetchGoogleCalendarEvents token w).2
    = exchanges w ++ [(q, Normal res)] →
  ok res = true →
  json res = Normal data →
  GoogleCalendarResponse.items data = None →
  (fetchGoogleCalendarEvents token w).1 = Normal [].
Proof.
  intros Hrun Hok Hjson Hitems.
  rewrite (fetch_decoded _ _ _ _ _ Hrun Hok Hjson). by rewrite Hitems.
Qed.

Lemma missing_items_empty_list_witness :
  let w := world_answering (Normal (okResponse None)) in
  exchanges (fetchGoogleCalendarEvents "tok" w).2
    = exchanges w ++ [(exampleRequest "tok", Normal (okResponse None))]
  ∧ ok (okResponse None) = true
  ∧ json (okResponse None) = Normal (GoogleCalendarResponse.mk None)
  ∧ GoogleCalendarResponse.items (GoogleCalendarResponse.mk None) = None
  ∧ (fetchGoogleCalendarEvents "tok" w).1 = Normal [].
Proof.
  split; [vm_compute; reflexivity|]. split; [reflexivity|].
  split; [reflexivity|]. split; [reflexivity|].
  apply (missing_items_empty_list "tok"
           (world_answering (Normal (okResponse None)))
           (exampleRequest "tok") (okResponse None)
           (GoogleCalendarResponse.mk None)).
  - vm_compute; reflexivity.
  - reflexivity.
  - reflexivity.
  - reflexivity.
Defined.

(** * The route handler (route.ts) *)

Lemma GET_run w :
  GET w =
  match authResult w with
  | Throw e => (Throw e, w)
  | Normal session =>
      match session ≫= accessToken with
      | None => (Normal unauthorizedResponse, w)
      | Some token =>
          if String.eqb token "" then (Normal unauthorizedResponse, w)
          else
            match fetchGoogleCalendarEvents token w with
            | (Normal events, w') =>
                (Normal (mkHttpResponse 200 (EventsBody events)), w')
            | (Throw e, w') =>
                (Normal failedToFetchResponse,
                 log_console "Failed to fetch calendar events:" e w')
            end
      end
  end.
Proof.
  unfold GET, async_bind, auth, try_catch.
  destruct (authResult w) as [session|e]; [|done].
  destruct (session ≫= accessToken) as [token|]; [|done].
  cbn [truthy]. destruct (String.eqb token ""); cbn [negb]; [done|].
  by destruct (fetchGoogleCalendarEvents token w) as [[events|e] w'].
Qed.

(** C10, as stated, fails: [auth()] is awaited before the [try] block, so a
    rejection of [auth()] propagates out of the handler. *)
Lemma GET_propagates_auth_rejection :
  authResult world_auth_rejecting = Throw authError
  ∧ GET world_auth_rejecting = (Throw authError, world_auth_rejecting)
  ∧ ¬ ∃ resp w', GET world_auth_rejecting = (Normal resp, w').
Proof.
  split; [reflexivity|]. split; [reflexivity|].
  intros (resp & w' & H). discriminate H.
Qed.

(** C10, amended: whenever [auth()] resolves, the handler returns a response
    and propagates no exception. When the session is null, or its
    [accessToken] is missing or empty, the response is 401 with the body
    [{error: "Unauthorized"}] and nothing else happens: the clock is not
    read, no request is issued, nothing is logged. Otherwise the provider
    fetch is called with the token: when it throws, the response is 500 with
    the body [{error: "Failed to fetch events"}] and the error is logged;
    when it returns events, the response is 200 with the body [{events}]. *)
Theorem GET_never_throws_once_authenticated w session :
  authResult w = Normal session →
  ∃ resp w',
    GET w = (Normal resp, w')
    ∧ (session ≫= accessToken = None ∨ session ≫= accessToken = Some "" →
       resp = mkHttpResponse 401 (ErrorBody "Unauthorized") ∧ w' = w)
    ∧ ∀ token, session ≫= accessToken = Some token → token ≠ "" →
        (∀ e, (fetchGoogleCalendarEvents token w).1 = Throw e →
           resp = mkHttpResponse 500 (ErrorBody "Failed to fetch events")
           ∧ w' = log_console "Failed to fetch calendar events:" e
                    (fetchGoogleCalendarEvents token w).2)
        ∧ (∀ events, (fetchGoogleCalendarEvents token w).1 = Normal events →
           resp = mkHttpResponse 200 (EventsBody events)
           ∧ w' = (fetchGoogleCalendarEvents token w).2).
Proof.
  intros Hauth. rewrite GET_run, Hauth.
  destruct (session ≫= accessToken) as [token|] eqn:Htok.
  - destruct (String.eqb token "") eqn:E.
    + apply String.eqb_eq in E as ->.
      eexists _, _. split; [done|]. split; [done|].
      by intros token [= <-] Hne.
    + apply String.eqb_neq in E.
      destruct (fetchGoogleCalendarEvents token w) as [[events|e] w1] eqn:Hf;
        eexists _, _; (split; [done|]); (split; [by intros [[=] | [= ->]]|]);
        intros token' [= <-] _; rewrite Hf; cbn; split; intros x [=]; by subst.
  - eexists _, _. split; [done|]. split; [done|]. by intros token [=].
Qed.

Lemma GET_never_throws_once_authenticated_witness :
  let s := Some (mkSession None) in
  let w := world_with_session s (Normal (okResponse (Some [meeting]))) in
  authResult w = Normal s
  ∧ ∃ resp w',
      GET w = (Normal resp, w')
      ∧ resp = mkHttpResponse 401 (ErrorBody "Unauthorized")
      ∧ w' = w.
Proof.
  split; [reflexivity|].
  destruct (GET_never_throws_once_authenticated
    (world_with_session (Some (mkSession None))
       (Normal (okResponse (Some [meeting]))))
    (Some (mkSession None))) as (resp & w' & Hget & H401 & _).
  - reflexivity.
  - exists resp, w'. split; [exact Hget|]. apply H401. left; reflexivity.
Defined.

(** The three outcomes of the handler on concrete worlds. *)

Example GET_events :
  (GET (world_with_session (Some (mkSession (Some "tok")))
          (Normal (okResponse (Some [allDay]))))).1
  = Normal (mkHttpResponse 200
      (EventsBody [CalendarEvent.mk "3" "All Day Event" "2024-01-03"
                     "2024-01-04" None None])).
Proof. vm_compute. reflexivity. Qed.

Example GET_upstream_failure :
  let run :=
    GET (world_with_session (Some (mkSession (Some "tok")))
           (Normal (failedResponse 403))) in
  run.1 = Normal (mkHttpResponse 500 (ErrorBody "Failed to fetch events"))
  ∧ console run.2
    = [("Failed to fetch calendar events:",
        Error "Google Calendar API error: 403")].
Proof. vm_compute. done. Qed.

Example GET_null_session :
  (GET (world_with_session None (Normal (okResponse (Some [allDay]))))).1
  = Normal (mkHttpResponse 401 (ErrorBody "Unauthorized")).
Proof. vm_compute. reflexivity. Qed.

Example GET_empty_token :
  (GET (world_with_session (Some (mkSession (Some "")))
          (Normal (okResponse (Some [allDay]))))).1
  = Normal (mkHttpResponse 401 (ErrorBody "Unauthorized")).
Proof. vm_compute. reflexivity. Qed.

(** When the clock does not advance between the two readings, the window is
    the 90 days that follow [timeMin]. *)
Lemma request_window_same_instant token w q r :
  exchanges (fetchGoogleCalendarEvents token w).2 = exchanges w ++ [(q, r)] →
  secondReading w = firstReading w →
  ∃ now future,
    toISOString (firstReading w) = Normal now
    ∧ toISOString (firstReading w + 7776000000) = Normal future
    ∧ URLSearchParams_get "timeMin" (req_url q) = Some now
    ∧ URLSearchParams_get "timeMax" (req_url q) = Some future.
Proof.
  intros Hrun Heq.
  destruct (fetch_exchange _ _ _ _ Hrun) as (now & future & Hn & Hf & -> & _).
  rewrite Heq in Hf. by exists now, future.
Qed.

(** * The Event Reconciler *)

(** The scenarios of the design document. *)

Example reconcile_scenario_insert :
  let fetched : gmap string Reconciler.CalendarEvent :=
    {[ "1" := Reconciler.googleEvent "1" "Meeting" "2024-01-01T10:00Z" 0 ]} in
  Reconciler.reconcile ∅ fetched
  = Reconciler.mkChangeset fetched ∅ ∅.
Proof. vm_compute. reflexivity. Qed.

Example reconcile_scenario_delete :
  let stored : gmap string Reconciler.CalendarEvent :=
    {[ "1" := Reconciler.googleEvent "1" "Meeting" "2024-01-01T10:00Z" 0 ]} in
  Reconciler.reconcile stored ∅
  = Reconciler.mkChangeset ∅ ∅ {[ "1" ]}.
Proof. vm_compute. reflexivity. Qed.

Section reconciler.
Import Reconciler.
Implicit Types stored fetched : gmap string CalendarEvent.

Lemma sameFields_refl e : sameFields e e = true.
Proof.
  unfold sameFields. rewrite !String.eqb_refl, !bool_decide_eq_true_2; done.
Qed.

Lemma sameFields_refresh now e : sameFields (refresh now e) e = true.
Proof.
  unfold sameFields, refresh. cbn.
  rewrite !String.eqb_refl, !bool_decide_eq_true_2; done.
Qed.

(** The store after a reconciliation, key by key: it holds exactly the
    fetched keys, each with an event that agrees with the fetched one on the
    compared fields. *)
Lemma applied_lookup now stored fetched k :
  applyChangeset now (reconcile stored fetched) stored !! k =
  match fetched !! k with
  | None => None
  | Some f =>
      match stored !! k with
      | None => Some f
      | Some s => if sameFields s f then Some s else Some (refresh now f)
      end
  end.
Proof.
  unfold applyChangeset, reconcile. cbn [toInsert toUpdate toDelete].
  rewrite !lookup_union, lookup_fmap, !map_lookup_filter.
  unfold differsFromStored. cbn [fst snd].
  destruct (fetched !! k) as [f|] eqn:Hf, (stored !! k) as [s|] eqn:Hs; cbn.
  - rewrite option_guard_False by done.
    rewrite (option_guard_True (k ∉ _)).
    2:{ rewrite elem_of_difference, !elem_of_dom, Hf. intros [_ []]. eauto. }
    destruct (sameFields s f); cbn.
    + by rewrite option_guard_False.
    + by rewrite option_guard_True.
  - rewrite option_guard_True by done.
    by rewrite option_guard_False.
  - rewrite option_guard_False; [done|].
    rewrite elem_of_difference, !elem_of_dom, Hf, Hs. intros H. apply H.
    split; [eauto|]. by intros [].
  - done.
Qed.

Lemma applied_agrees now stored fetched k f :
  fetched !! k = Some f →
  ∃ e, applyChangeset now (reconcile stored fetched) stored !! k = Some e
       ∧ sameFields e f = true.
Proof.
  intros Hf. rewrite applied_lookup, Hf.
  destruct (stored !! k) as [s|]; [|eauto using sameFields_refl].
  destruct (sameFields s f) eqn:E; eauto using sameFields_refresh.
Qed.

End reconciler.

Lemma reconcile_applied now
    (stored fetched : gmap string Reconciler.CalendarEvent) :
  Reconciler.reconcile
    (Reconciler.applyChangeset now (Reconciler.reconcile stored fetched) stored)
    fetched
  = Reconciler.emptyChangeset.
Proof.
  unfold Reconciler.reconcile at 1. unfold Reconciler.emptyChangeset. f_equal.
  - apply map_empty. intros k. apply map_lookup_filter_None.
    destruct (fetched !! k) as [f|] eqn:Hf; [right|by left].
    destruct (applied_agrees now stored fetched k f Hf) as (e & He & _).
    intros f' [= <-] H. cbn [fst snd] in H. by rewrite He in H.
  - apply map_empty. intros k. apply map_lookup_filter_None.
    destruct (fetched !! k) as [f|] eqn:Hf; [right|by left].
    destruct (applied_agrees now stored fetched k f Hf) as (e & He & Hsame).
    intros f' [= <-] H. unfold Reconciler.differsFromStored in H.
    cbn [fst snd] in H. by rewrite He, Hsame in H.
  - apply set_eq. intros k.
    rewrite elem_of_difference, !elem_of_dom, applied_lookup.
    destruct (fetched !! k) as [f|] eqn:Hf.
    + split; [|set_solver]. intros [_ []]. eauto.
    + split; [|set_solver]. by intros [[] _].
Qed.

(** C8: whatever the stored and the fetched sets, reconciling the fetched
    set again, against the store to which the first changeset was applied,
    gives the empty changeset. *)
Theorem reconcile_idempotent now
    (stored fetched : gmap string Reconciler.CalendarEvent) :
  let stored' :=
    Reconciler.applyChangeset now (Reconciler.reconcile stored fetched) stored in
  Reconciler.reconcile stored' fetched
  = {| Reconciler.toInsert := ∅;
       Reconciler.toUpdate := ∅;
       Reconciler.toDelete := ∅ |}.
Proof. apply reconcile_applied. Qed.

(** Applying the empty changeset changes nothing, so the second application
    of the same fetched set leaves the store as the first one left it. *)
Lemma applyChangeset_empty now (stored : gmap string Reconciler.CalendarEvent) :
  Reconciler.applyChangeset now Reconciler.emptyChangeset stored = stored.
Proof.
  unfold Reconciler.applyChangeset, Reconciler.emptyChangeset. cbn.
  rewrite fmap_empty, !(left_id_L ∅ (∪)).
  apply map_filter_id. intros k e _. cbn. set_solver.
Qed.

Lemma second_application_changes_nothing now now'
    (stored fetched : gmap string Reconciler.CalendarEvent) :
  let stored' :=
    Reconciler.applyChangeset now (Reconciler.reconcile stored fetched) stored in
  Reconciler.applyChangeset now' (Reconciler.reconcile stored' fetched) stored'
  = stored'.
Proof.
  cbv zeta. rewrite reconcile_applied. apply applyChangeset_empty.
Qed.

Example reconcile_scenario_rerun :
  let fetched : gmap string Reconciler.CalendarEvent :=
    {[ "1" := Reconciler.googleEvent "1" "Meeting" "2024-01-01T10:00Z" 0 ]} in
  Reconciler.reconcile
    (Reconciler.applyChangeset 5 (Reconciler.reconcile ∅ fetched) ∅) fetched
  = Reconciler.mkChangeset ∅ ∅ ∅.
Proof. vm_compute. reflexivity. Qed.

Example reconcile_scenario_update :
  let stored : gmap string Reconciler.CalendarEvent :=
    {[ "1" := Reconciler.googleEvent "1" "Meeting" "2024-01-01T10:00Z" 0 ;
       "2" := Reconciler.googleEvent "2" "Lunch" "2024-01-01T12:00Z" 0 ]} in
  let fetched : gmap string Reconciler.CalendarEvent :=
    {[ "1" := Reconciler.googleEvent "1" "Meeting (moved)" "2024-01-01T11:00Z" 3 ;
       "3" := Reconciler.googleEvent "3" "Review" "2024-01-02T09:00Z" 3 ]} in
  Reconciler.reconcile stored fetched
  = Reconciler.mkChangeset
      {[ "3" := Reconciler.googleEvent "3" "Review" "2024-01-02T09:00Z" 3 ]}
      {[ "1" := Reconciler.googleEvent "1" "Meeting (moved)" "2024-01-01T11:00Z" 3 ]}
      {[ "2" ]}
  ∧ Reconciler.applyChangeset 7 (Reconciler.reconcile stored fetched) stored
    = {[ "1" := Reconciler.googleEvent "1" "Meeting (moved)" "2024-01-01T11:00Z" 7 ;
         "3" := Reconciler.googleEvent "3" "Review" "2024-01-02T09:00Z" 3 ]}.
Proof. vm_compute. done. Qed.

(** * More on [fetchGoogleCalendarEvents] *)

(** X1: every request goes to the events endpoint of the primary calendar,
    with exactly the four query parameters timeMin, timeMax, singleEvents and
    orderBy, each once and in that order, and with the access token as the
    bearer of the one Authorization header. *)
Theorem request_shape token w q r :
  exchanges (fetchGoogleCalendarEvents token w).2 = exchanges w ++ [(q, r)] →
  url_base (req_url q)
    = "https://www.googleapis.com/calendar/v3/calendars/primary/events"
  ∧ (searchParams (req_url q)).*1
    = ["timeMin"; "timeMax"; "singleEvents"; "orderBy"]
  ∧ req_headers q = [("Authorization", "Bearer " +:+ token)].
Proof.
  intros Hrun.
  by destruct (fetch_exchange _ _ _ _ Hrun) as (now & future & _ & _ & -> & _).
Qed.

Lemma request_shape_witness :
  let w := world_answering (Normal (okResponse None)) in
  exchanges (fetchGoogleCalendarEvents "fake-token" w).2
    = exchanges w ++ [(exampleRequest "fake-token", Normal (okResponse None))]
  ∧ req_headers (exampleRequest "fake-token")
    = [("Authorization", "Bearer fake-token")].
Proof.
  split; [vm_compute; reflexivity|].
  apply (request_shape "fake-token"
           (world_answering (Normal (okResponse None)))
           (exampleRequest "fake-token") (Normal (okResponse None))).
  vm_compute; reflexivity.
Defined.

(** X2: when [fetch] itself rejects (the upstream cannot be reached), the
    call throws that very error; it neither retries nor wraps it. *)
Theorem network_rejection_propagates token w q e :
  exchanges (fetchGoogleCalendarEvents token w).2
    = exchanges w ++ [(q, Throw e)] →
  (fetchGoogleCalendarEvents token w).1 = Throw e.
Proof.
  intros Hrun.
  by destruct (fetch_exchange _ _ _ _ Hrun) as (now & future & _ & _ & _ & _ & ->).
Qed.

Lemma network_rejection_propagates_witness :
  let e := mkJsError "TypeError" "fetch failed" in
  let w := world_answering (Throw e) in
  exchanges (fetchGoogleCalendarEvents "tok" w).2
    = exchanges w ++ [(exampleRequest "tok", Throw e)]
  ∧ (fetchGoogleCalendarEvents "tok" w).1 = Throw e.
Proof.
  split; [vm_compute; reflexivity|].
  apply (network_rejection_propagates "tok"
           (world_answering (Throw (mkJsError "TypeError" "fetch failed")))
           (exampleRequest "tok")).
  vm_compute; reflexivity.
Defined.

Lemma fetch_effects token w :
  let w' := (fetchGoogleCalendarEvents token w).2 in
  console w' = console w
  ∧ authResult w' = authResult w
  ∧ clock w' = clock w
  ∧ network w' = network w
  ∧ ((reads w' = S (reads w) ∧ exchanges w' = exchanges w)
     ∨ (reads w' = S (S (reads w))
        ∧ (exchanges w' = exchanges w
           ∨ ∃ q r, exchanges w' = exchanges w ++ [(q, r)]))).
Proof.
  cbv zeta. rewrite fetch_run.
  destruct (toISOString (firstReading w)); [|by auto 10].
  destruct (toISOString (secondReading w + ninetyDays)); [|by auto 10].
  cbn. repeat split. right. split; [done|]. right. by eexists _, _.
Qed.

(** X3: a call reads the clock once or twice, issues at most one request, and
    touches nothing else: it writes nothing to the console and leaves the
    session alone. When it issues a request it has read the clock exactly
    twice. *)
Theorem fetch_footprint token w :
  let w' := (fetchGoogleCalendarEvents token w).2 in
  console w' = console w
  ∧ authResult w' = authResult w
  ∧ clock w' = clock w
  ∧ network w' = network w
  ∧ (reads w' = S (reads w) ∨ reads w' = S (S (reads w)))
  ∧ (exchanges w' = exchanges w
     ∨ ∃ q r, exchanges w' = exchanges w ++ [(q, r)]
              ∧ reads w' = S (S (reads w))).
Proof.
  destruct (fetch_effects token w) as (Hc & Ha & Hk & Hn & H).
  cbv zeta. repeat (split; [done|]).
  destruct H as [[Hr He]|[Hr [He|(q & r & He)]]]; eauto 10.
Qed.

(** X4: every returned event has a title that is not empty. *)
Theorem returned_titles_not_empty token w events :
  (fetchGoogleCalendarEvents token w).1 = Normal events →
  ∀ e, e ∈ events → CalendarEvent.title e ≠ "".
Proof.
  rewrite fetch_run.
  destruct (toISOString (firstReading w)); [|done].
  destruct (toISOString (secondReading w + ninetyDays)); [|done].
  cbn. destruct (network w _) as [res|]; [|done].
  unfold responseOutcome. destruct (ok res); [|done].
  destruct (json res) as [data|]; [|done].
  intros [= <-] e (g & -> & _)%list_elem_of_fmap. cbn.
  destruct (GoogleCalendarEvent.summary g) as [s|]; [|done]. cbn.
  destruct (String.eqb s "") eqn:E; [done|]. by apply String.eqb_neq.
Qed.

Lemma returned_titles_not_empty_witness :
  let w := world_answering (Normal (okResponse (Some [untitled]))) in
  ∃ events,
    (fetchGoogleCalendarEvents "tok" w).1 = Normal events
    ∧ ∀ e, e ∈ events → CalendarEvent.title e ≠ "".
Proof.
  exists [normalizeEvent untitled]. split; [vm_compute; reflexivity|].
  apply (returned_titles_not_empty "tok"
           (world_answering (Normal (okResponse (Some [untitled]))))).
  vm_compute; reflexivity.
Defined.

Lemma js_or_str_empty_iff v : js_or_str v "" = "" ↔ truthy v = false.
Proof.
  destruct v as [s|]; cbn; [|done].
  destruct (String.eqb s "") eqn:E; cbn; [done|].
  apply String.eqb_neq in E. naive_solver.
Qed.

Lemma js_or_empty_iff a b :
  js_or_str (js_or a b) "" = "" ↔ truthy a = false ∧ truthy b = false.
Proof.
  rewrite js_or_str_empty_iff. unfold js_or.
  destruct (truthy a) eqn:Ha.
  - rewrite Ha. split; [done|by intros [? _]].
  - split; [done|by intros [_ ?]].
Qed.

(** X5: the start of a returned event is the empty string exactly when the
    upstream event has neither a [dateTime] nor a [date] that is not empty;
    likewise for the end. *)
Theorem start_empty_iff_no_time token w q res data :
  exchanges (fetchGoogleCalendarEvents token w).2
    = exchanges w ++ [(q, Normal res)] →
  ok res = true →
  json res = Normal data →
  ∃ events,
    (fetchGoogleCalendarEvents token w).1 = Normal events
    ∧ ∀ i g, default [] (GoogleCalendarResponse.items data) !! i = Some g →
        ∃ e, events !! i = Some e
          ∧ (CalendarEvent.start e = "" ↔
               truthy (EventTime.dateTime (GoogleCalendarEvent.start g)) = false
               ∧ truthy (EventTime.date (GoogleCalendarEvent.start g)) = false)
          ∧ (CalendarEvent.end_ e = "" ↔
               truthy (EventTime.dateTime (GoogleCalendarEvent.end_ g)) = false
               ∧ truthy (EventTime.date (GoogleCalendarEvent.end_ g)) = false).
Proof.
  intros Hrun Hok Hjson.
  destruct (fetch_pointwise _ _ _ _ _ Hrun Hok Hjson) as (events & Hout & Hpt).
  exists events. split; [done|]. intros i g Hg.
  exists (normalizeEvent g). rewrite Hpt, Hg. split; [done|].
  split; apply js_or_empty_iff.
Qed.

Lemma start_empty_iff_no_time_witness :
  let timeless :=
    GoogleCalendarEvent.mk "5" (Some "Sometime") (EventTime.mk None None)
      (EventTime.mk None (Some "")) None None in
  let r := okResponse (Some [timeless]) in
  let w := world_answering (Normal r) in
  exchanges (fetchGoogleCalendarEvents "tok" w).2
    = exchanges w ++ [(exampleRequest "tok", Normal r)]
  ∧ ok r = true
  ∧ json r = Normal (GoogleCalendarResponse.mk (Some [timeless]))
  ∧ ∃ events,
      (fetchGoogleCalendarEvents "tok" w).1 = Normal events
      ∧ ∃ e, events !! 0%nat = Some e
             ∧ CalendarEvent.start e = "" ∧ CalendarEvent.end_ e = "".
Proof.
  split; [vm_compute; reflexivity|]. split; [reflexivity|].
  split; [reflexivity|].
  destruct (start_empty_iff_no_time "tok"
    (world_answering (Normal (okResponse (Some
       [GoogleCalendarEvent.mk "5" (Some "Sometime") (EventTime.mk None None)
          (EventTime.mk None (Some "")) None None]))))
    (exampleRequest "tok")
    (okResponse (Some
       [GoogleCalendarEvent.mk "5" (Some "Sometime") (EventTime.mk None None)
          (EventTime.mk None (Some "")) None None]))
    (GoogleCalendarResponse.mk (Some
       [GoogleCalendarEvent.mk "5" (Some "Sometime") (EventTime.mk None None)
          (EventTime.mk None (Some "")) None None])))
    as (events & Hout & Hall).
  - vm_compute; reflexivity.
  - reflexivity.
  - reflexivity.
  - exists events. split; [exact Hout|].
    destruct (Hall 0%nat _ eq_refl) as (e & He & Hs & Hen).
    exists e. split; [exact He|]. split.
    + apply Hs. split; reflexivity.
    + apply Hen. split; reflexivity.
Defined.

(** * The route handler and the provider together *)

(** X6: whatever non-success status the upstream answers with (a 401 for an
    expired token included), the route answers 500 with the fixed body; the
    upstream status goes to the console only. *)
Theorem upstream_failure_answers_500 w session token q res :
  authResult w = Normal session →
  session ≫= accessToken = Some token →
  token ≠ "" →
  exchanges (fetchGoogleCalendarEvents token w).2
    = exchanges w ++ [(q, Normal res)] →
  ok res = false →
  (GET w).1 = Normal (mkHttpResponse 500 (ErrorBody "Failed to fetch events"))
  ∧ console (GET w).2
    = console w ++ [("Failed to fetch calendar events:",
                     Error ("Google Calendar API error: "
                            +:+ pretty (status res)))].
Proof.
  intros Hauth Htok Hne Hrun Hok.
  rewrite GET_run, Hauth, Htok. apply String.eqb_neq in Hne as ->.
  destruct (fetch_exchange _ _ _ _ Hrun) as (now & future & _ & _ & _ & _ & Hout).
  pose proof (fetch_effects token w) as (Hconsole & _).
  destruct (fetchGoogleCalendarEvents token w) as [out w'].
  cbn in Hout, Hconsole. subst out.
  unfold responseOutcome. rewrite Hok. cbn. by rewrite Hconsole.
Qed.

Lemma upstream_failure_answers_500_witness :
  let s := Some (mkSession (Some "tok")) in
  let w := world_with_session s (Normal (failedResponse 401)) in
  authResult w = Normal s
  ∧ s ≫= accessToken = Some "tok"
  ∧ "tok" ≠ ""
  ∧ exchanges (fetchGoogleCalendarEvents "tok" w).2
    = exchanges w ++ [(exampleRequest "tok", Normal (failedResponse 401))]
  ∧ ok (failedResponse 401) = false
  ∧ (GET w).1 = Normal (mkHttpResponse 500 (ErrorBody "Failed to fetch events")).
Proof.
  split; [reflexivity|]. split; [reflexivity|]. split; [discriminate|].
  split; [vm_compute; reflexivity|]. split; [reflexivity|].
  refine (proj1 (upstream_failure_answers_500
    (world_with_session (Some (mkSession (Some "tok")))
       (Normal (failedResponse 401)))
    (Some (mkSession (Some "tok"))) "tok" (exampleRequest "tok")
    (failedResponse 401) _ _ _ _ _)).
  - reflexivity.
  - reflexivity.
  - discriminate.
  - vm_compute; reflexivity.
  - reflexivity.
Defined.

(** X7: with a session token and an upstream that answers with a decodable
    success response, the route answers 200 with the normalized items, in
    the order of the body; the one request it caused carried the session's
    token as bearer, and nothing was logged. *)
Theorem route_returns_normalized_items w session token q res data :
  authResult w = Normal session →
  session ≫= accessToken = Some token →
  token ≠ "" →
  exchanges (fetchGoogleCalendarEvents token w).2
    = exchanges w ++ [(q, Normal res)] →
  ok res = true →
  json res = Normal data →
  (GET w).1
    = Normal (mkHttpResponse 200
        (EventsBody
           (normalizeEvent <$> default [] (GoogleCalendarResponse.items data))))
  ∧ exchanges (GET w).2 = exchanges w ++ [(q, Normal res)]
  ∧ req_headers q = [("Authorization", "Bearer " +:+ token)]
  ∧ console (GET w).2 = console w.
Proof.
  intros Hauth Htok Hne Hrun Hok Hjson.
  rewrite GET_run, Hauth, Htok. apply String.eqb_neq in Hne as ->.
  pose proof (fetch_decoded _ _ _ _ _ Hrun Hok Hjson) as Hout.
  destruct (fetch_exchange _ _ _ _ Hrun) as (now & future & _ & _ & -> & _).
  pose proof (fetch_effects token w) as (Hconsole & _).
  destruct (fetchGoogleCalendarEvents token w) as [out w'].
  cbn in Hout, Hconsole, Hrun. by subst out.
Qed.

Lemma route_returns_normalized_items_witness :
  let s := Some (mkSession (Some "tok")) in
  let r := okResponse (Some [meeting; allDay]) in
  let w := world_with_session s (Normal r) in
  authResult w = Normal s
  ∧ s ≫= accessToken = Some "tok"
  ∧ "tok" ≠ ""
  ∧ exchanges (fetchGoogleCalendarEvents "tok" w).2
    = exchanges w ++ [(exampleRequest "tok", Normal r)]
  ∧ ok r = true
  ∧ json r = Normal (GoogleCalendarResponse.mk (Some [meeting; allDay]))
  ∧ (GET w).1
    = Normal (mkHttpResponse 200
        (EventsBody [normalizeEvent meeting; normalizeEvent allDay])).
Proof.
  split; [reflexivity|]. split; [reflexivity|]. split; [discriminate|].
  split; [vm_compute; reflexivity|]. split; [reflexivity|].
  split; [reflexivity|].
  refine (proj1 (route_returns_normalized_items
    (world_with_session (Some (mkSession (Some "tok")))
       (Normal (okResponse (Some [meeting; allDay]))))
    (Some (mkSession (Some "tok"))) "tok" (exampleRequest "tok")
    (okResponse (Some [meeting; allDay]))
    (GoogleCalendarResponse.mk (Some [meeting; allDay])) _ _ _ _ _ _)).
  - reflexivity.
  - reflexivity.
  - discriminate.
  - vm_compute; reflexivity.
  - reflexivity.
  - reflexivity.
Defined.

(** X8: whenever [auth()] resolves, the route answers with status 401, 500
    or 200; it carries events exactly when the status is 200, it writes one
    entry to the console when the status is 500 and none otherwise, and with
    status 401 it has issued no request. *)
Theorem route_status_and_log w session :
  authResult w = Normal session →
  ∃ resp,
    (GET w).1 = Normal resp
    ∧ ((http_status resp = 401%N
        ∧ http_body resp = ErrorBody "Unauthorized"
        ∧ console (GET w).2 = console w
        ∧ exchanges (GET w).2 = exchanges w)
       ∨ (http_status resp = 500%N
          ∧ http_body resp = ErrorBody "Failed to fetch events"
          ∧ ∃ e, console (GET w).2
                 = console w ++ [("Failed to fetch calendar events:", e)])
       ∨ (http_status resp = 200%N
          ∧ (∃ events, http_body resp = EventsBody events)
          ∧ console (GET w).2 = console w)).
Proof.
  intros Hauth. rewrite GET_run, Hauth.
  destruct (session ≫= accessToken) as [token|]; [|eexists; split; [done|by left]].
  destruct (String.eqb token ""); [eexists; split; [done|by left]|].
  pose proof (fetch_effects token w) as (Hconsole & _).
  destruct (fetchGoogleCalendarEvents token w) as [[events|e] w'];
    cbn in Hconsole; eexists; (split; [done|]); right.
  - right. cbn. eauto.
  - left. cbn. rewrite Hconsole. eauto.
Qed.

Lemma route_status_and_log_witness :
  let s := Some (mkSession (Some "tok")) in
  let w := world_with_session s (Normal htmlResponse) in
  authResult w = Normal s
  ∧ ∃ resp,
      (GET w).1 = Normal resp
      ∧ ((http_status resp = 401%N
          ∧ http_body resp = ErrorBody "Unauthorized"
          ∧ console (GET w).2 = console w
          ∧ exchanges (GET w).2 = exchanges w)
         ∨ (http_status resp = 500%N
            ∧ http_body resp = ErrorBody "Failed to fetch events"
            ∧ ∃ e, console (GET w).2
                   = console w ++ [("Failed to fetch calendar events:", e)])
         ∨ (http_status resp = 200%N
            ∧ (∃ events, http_body resp = EventsBody events)
            ∧ console (GET w).2 = console w)).
Proof.
  split; [reflexivity|].
  apply (route_status_and_log
    (world_with_session (Some (mkSession (Some "tok"))) (Normal htmlResponse))
    (Some (mkSession (Some "tok")))).
  reflexivity.
Defined.

(** * The Calendar component *)

Lemma string_app_empty_r s : s +:+ "" = s.
Proof.
  induction s as [|c s IH]; [done|].
  change (String c (s +:+ "") = String c s). by rewrite IH.
Qed.

Section calendar.
Variable fmt : string → string.

Ltac article_cases e :=
  unfold eventArticle, byTag, byClass, byRole, jsx_text, jsx_and, truthy;
  destruct (CalendarEvent.location e) as [?l|]; cbn beta iota;
  repeat match goal with
         | |- context [String.eqb ?s ""] =>
             let E := fresh "E" in
             destruct (String.eqb s "") eqn:E;
             [apply String.eqb_eq in E|clear E]
         end;
  cbn; rewrite ?string_app_empty_r.

Lemma article_listitems e :
  byRole "listitem" (eventArticle fmt e) = [eventArticle fmt e].
Proof. article_cases e; reflexivity. Qed.

Lemma filter_descendants_articles (f : Node → bool) events :
  List.filter f (flat_map descendants (eventArticle fmt <$> events))
  = flat_map (λ e, List.filter f (descendants (eventArticle fmt e))) events.
Proof.
  induction events as [|e events IH]; [done|].
  cbn [fmap list_fmap flat_map]. by rewrite List.filter_app, IH.
Qed.

Lemma flat_map_singleton {A B} (g : A → B) l : flat_map (λ x, [g x]) l = g <$> l.
Proof. induction l as [|x l IH]; [done|]. cbn. by rewrite IH. Qed.

(** The list items of the rendering are the articles of the events, in
    order. *)
Lemma Calendar_listitems events :
  byRole "listitem" (Calendar fmt events) = eventArticle fmt <$> events.
Proof.
  destruct events as [|e0 events]; [done|].
  unfold Calendar. cbn [length Nat.eqb]. unfold byRole at 1.
  cbn [descendants]. cbn [List.filter has_prop prop List.find has_key fst snd
    String.eqb Ascii.eqb Bool.eqb fmap option_fmap option_map].
  rewrite filter_descendants_articles.
  rewrite (flat_map_ext _ (λ e, [eventArticle fmt e])) by apply article_listitems.
  apply flat_map_singleton.
Qed.

Lemma article_heading e :
  textOf <$> byTag "h3" (eventArticle fmt e) = [CalendarEvent.title e].
Proof. article_cases e; congruence. Qed.

Lemma article_time e :
  (λ t, (prop "dateTime" t, textOf t)) <$> byTag "time" (eventArticle fmt e)
  = [(Some (CalendarEvent.start e), fmt (CalendarEvent.start e))].
Proof. article_cases e; congruence. Qed.

Lemma article_dateTime e :
  prop "dateTime" <$> byTag "time" (eventArticle fmt e)
  = [Some (CalendarEvent.start e)].
Proof. article_cases e; congruence. Qed.

Lemma article_location e :
  textOf <$> byClass "location" (eventArticle fmt e)
  = (if truthy (CalendarEvent.location e)
     then [default "" (CalendarEvent.location e)]
     else []).
Proof. article_cases e; congruence. Qed.

(** Around the Calendar component the calendar page has no element with a
    role. *)
Lemma byRole_page role calendar :
  byRole role
    (Element "main" None []
       [ Element "header" None []
           [ Element "h1" None [] [Text "Your Calendar"];
             ComponentElement "AuthButton" ];
         calendar ])
  = byRole role calendar.
Proof.
  unfold byRole. cbn [descendants flat_map app].
  by rewrite app_nil_r.
Qed.

(** X9: the component renders the paragraph "No upcoming events." exactly
    when the list of events is empty, and a list (an element with the role
    list) exactly when it is not. *)
Theorem Calendar_empty_state_iff events :
  (Calendar fmt events = Element "p" None [] [Text "No upcoming events."]
   ↔ events = [])
  ∧ (byRole "list" (Calendar fmt events) = [] ↔ events = [])
  ∧ (events = [] → textOf (Calendar fmt events) = "No upcoming events.").
Proof.
  destruct events as [|e events]; [done|].
  split; [done|]. split; [|done]. split; [|done].
  unfold Calendar, byRole. cbn [length Nat.eqb descendants]. cbn. done.
Qed.

(** X10: the rendering has one list item per event, in the order of the
    events; the key of an item is the id of its event, and its one heading
    has the title of its event as text. *)
Theorem Calendar_one_item_per_event events :
  length (byRole "listitem" (Calendar fmt events)) = length events
  ∧ keyOf <$> byRole "listitem" (Calendar fmt events)
    = (λ e, Some (CalendarEvent.id e)) <$> events
  ∧ (λ item, textOf <$> byTag "h3" item)
      <$> byRole "listitem" (Calendar fmt events)
    = (λ e, [CalendarEvent.title e]) <$> events.
Proof.
  rewrite Calendar_listitems, length_fmap, <- !list_fmap_compose.
  split; [done|]. split; [done|].
  apply list_fmap_ext. intros _ e _. cbn [compose].
  article_cases e; congruence.
Qed.

(** X11: an item shows a location paragraph exactly when its event has a
    location that is not empty, and the paragraph's text is that location. *)
Theorem Calendar_location_shown_iff events i e :
  events !! i = Some e →
  ∃ item,
    byRole "listitem" (Calendar fmt events) !! i = Some item
    ∧ textOf <$> byClass "location" item
      = (if truthy (CalendarEvent.location e)
         then [default "" (CalendarEvent.location e)]
         else []).
Proof.
  intros He. exists (eventArticle fmt e).
  rewrite Calendar_listitems, list_lookup_fmap, He. split; [done|].
  article_cases e; congruence.
Qed.

(** X12: the time element of an item has the start of its event, unchanged,
    as its dateTime attribute, and the start as formatted by
    [toLocaleDateString] as its text. *)
Theorem Calendar_time_of_start events i e :
  events !! i = Some e →
  ∃ item,
    byRole "listitem" (Calendar fmt events) !! i = Some item
    ∧ (λ t, (prop "dateTime" t, textOf t)) <$> byTag "time" item
      = [(Some (CalendarEvent.start e), fmt (CalendarEvent.start e))].
Proof.
  intros He. exists (eventArticle fmt e).
  rewrite Calendar_listitems, list_lookup_fmap, He. split; [done|].
  article_cases e; congruence.
Qed.

End calendar.

Lemma Calendar_location_shown_iff_witness :
  [officeEvent; secondEvent] !! 0%nat = Some officeEvent
  ∧ ∃ item,
      byRole "listitem" (Calendar en_format [officeEvent; secondEvent]) !! 0%nat
        = Some item
      ∧ textOf <$> byClass "location" item = ["Office"].
Proof.
  split; [reflexivity|].
  apply (Calendar_location_shown_iff en_format [officeEvent; secondEvent]
           0%nat officeEvent).
  reflexivity.
Defined.

Lemma Calendar_time_of_start_witness :
  [officeEvent; secondEvent] !! 1%nat = Some secondEvent
  ∧ ∃ item,
      byRole "listitem" (Calendar en_format [officeEvent; secondEvent]) !! 1%nat
        = Some item
      ∧ (λ t, (prop "dateTime" t, textOf t)) <$> byTag "time" item
        = [(Some "2024-01-02T14:00:00Z", "on 2024-01-02T14:00:00Z")].
Proof.
  split; [reflexivity|].
  apply (Calendar_time_of_start en_format [officeEvent; secondEvent]
           1%nat secondEvent).
  reflexivity.
Defined.

(** The tests of Calendar.test.tsx. *)

Example test_renders_all_events :
  length (byRole "listitem" (Calendar en_format [officeEvent; secondEvent]))
  = 2%nat
  ∧ length (byRole "list" (Calendar en_format [officeEvent; secondEvent]))
    = 1%nat.
Proof. vm_compute. done. Qed.

Example test_location_not_rendered :
  byClass "location" (Calendar en_format [secondEvent]) = [].
Proof. vm_compute. reflexivity. Qed.

(** * The pages *)

Section pages.
Variable fmt : string → string.

Lemma CalendarPage_run w :
  CalendarPage fmt w =
  match authResult w with
  | Throw e => (Throw e, w)
  | Normal session =>
      match session ≫= accessToken with
      | None => (Throw (redirectError "/"), w)
      | Some token =>
          if String.eqb token "" then (Throw (redirectError "/"), w)
          else
            match fetchGoogleCalendarEvents token w with
            | (Normal events, w') =>
                (Normal
                   (Element "main" None []
                      [ Element "header" None []
                          [ Element "h1" None [] [Text "Your Calendar"];
                            ComponentElement "AuthButton" ];
                        Calendar fmt events ]), w')
            | (Throw e, w') => (Throw e, w')
            end
      end
  end.
Proof.
  unfold CalendarPage, async_bind, auth, redirect, throw.
  destruct (authResult w) as [session|e]; [|done].
  destruct (session ≫= accessToken) as [token|]; [|done].
  cbn [truthy]. destruct (String.eqb token ""); cbn [negb]; [done|].
  by destruct (fetchGoogleCalendarEvents token w) as [[events|e] w'].
Qed.

Lemma Home_run w :
  Home w =
  match authResult w with
  | Throw e => (Throw e, w)
  | Normal session =>
      if truthy (session ≫= accessToken)
      then (Throw (redirectError "/calendar"), w)
      else
        (Normal
           (Element "main" None []
              [ Element "h1" None [] [Text "LocalCal"];
                Element "p" None []
                  [Text "Connect your Google Calendar to view your events."];
                ComponentElement "AuthButton" ]), w)
  end.
Proof.
  unfold Home, async_bind, auth, redirect, throw, async_ret.
  destruct (authResult w) as [session|e]; [|done].
  destruct (session ≫= accessToken) as [token|]; [|done].
  by destruct (truthy (Some token)).
Qed.

Lemma toISOString_throws t e :
  toISOString t = Throw e → err_name e = "RangeError".
Proof.
  unfold toISOString. destruct (_ <? _)%Z; [by intros [= <-]|].
  by destruct (civil_from_days _) as [[y m] d].
Qed.

(** What a call can throw: the [RangeError] of [toISOString], the [Error] of
    the status check, or what [fetch] or [json()] rejected with. *)
Lemma fetch_throws token w e :
  (fetchGoogleCalendarEvents token w).1 = Throw e →
  err_name e = "RangeError"
  ∨ err_name e = "Error"
  ∨ (∃ q, network w q = Throw e)
  ∨ (∃ q res, network w q = Normal res ∧ json res = Throw e).
Proof.
  rewrite fetch_run.
  destruct (toISOString (firstReading w)) as [now|e1] eqn:H1.
  2:{ intros [= <-]. left. by eapply toISOString_throws. }
  destruct (toISOString (secondReading w + ninetyDays)) as [future|e2] eqn:H2.
  2:{ intros [= <-]. left. by eapply toISOString_throws. }
  cbn. destruct (network w _) as [res|e3] eqn:Hn.
  2:{ intros [= <-]. right; right; left. by eexists. }
  unfold responseOutcome. destruct (ok res).
  - destruct (json res) as [data|e4] eqn:Hj; [done|].
    intros [= <-]. right; right; right. by eexists _, _.
  - intros [= <-]. right; by left.
Qed.

(** X13: for every session, exactly one of the landing page and the calendar
    page redirects, and it redirects to the other before doing anything
    else. Without a token that is not empty the calendar page redirects to
    "/" and the landing page renders. With one the landing page redirects
    to "/calendar", and the calendar page completes as the provider fetch
    does, rendering on success and throwing the provider's error on
    failure; as long as what [fetch] and [json()] reject with is not itself
    a redirect error, the calendar page then redirects nowhere. The two
    never send a visitor back and forth. *)
Theorem pages_redirect_to_each_other_once w session :
  authResult w = Normal session →
  (∀ q e, network w q = Throw e → err_name e ≠ "NEXT_REDIRECT") →
  (∀ q res e, network w q = Normal res → json res = Throw e →
              err_name e ≠ "NEXT_REDIRECT") →
  (truthy (session ≫= accessToken) = false
   ∧ CalendarPage fmt w = (Throw (redirectError "/"), w)
   ∧ ∃ landing, Home w = (Normal landing, w))
  ∨ (truthy (session ≫= accessToken) = true
     ∧ Home w = (Throw (redirectError "/calendar"), w)
     ∧ (∀ url, (CalendarPage fmt w).1 ≠ Throw (redirectError url))
     ∧ ∃ token,
         session ≫= accessToken = Some token
         ∧ CalendarPage fmt w
           = match fetchGoogleCalendarEvents token w with
             | (Normal events, w') =>
                 (Normal
                    (Element "main" None []
                       [ Element "header" None []
                           [ Element "h1" None [] [Text "Your Calendar"];
                             ComponentElement "AuthButton" ];
                         Calendar fmt events ]), w')
             | (Throw e, w') => (Throw e, w')
             end).
Proof.
  intros Hauth Hnet Hjson. rewrite CalendarPage_run, Home_run, Hauth.
  destruct (session ≫= accessToken) as [token|]; [|left; eauto].
  cbn [truthy]. destruct (String.eqb token ""); cbn [negb]; [left; eauto|].
  right. split; [done|]. split; [done|]. split; [|by exists token].
  intros url Hredirect.
  assert (Hthrow : (fetchGoogleCalendarEvents token w).1
                   = Throw (redirectError url)).
  { destruct (fetchGoogleCalendarEvents token w) as [[events|e] w'];
      cbn in *; congruence. }
  destruct (fetch_throws _ _ _ Hthrow)
    as [H|[H|[(q & H)|(q & res & H & H')]]].
  - discriminate H.
  - discriminate H.
  - by apply Hnet in H.
  - by apply (Hjson _ _ _ H) in H'.
Qed.

(** X14: a failure of the provider fetch propagates out of the calendar
    page, which has no [try] around the call and logs nothing, whereas the
    route turns the same failure into its 500 response. *)
Theorem page_propagates_provider_failure w session token e :
  authResult w = Normal session →
  session ≫= accessToken = Some token →
  token ≠ "" →
  (fetchGoogleCalendarEvents token w).1 = Throw e →
  (CalendarPage fmt w).1 = Throw e
  ∧ console (CalendarPage fmt w).2 = console w
  ∧ (GET w).1 = Normal (mkHttpResponse 500 (ErrorBody "Failed to fetch events")).
Proof.
  intros Hauth Htok Hne Hf.
  rewrite CalendarPage_run, GET_run, Hauth, Htok.
  apply String.eqb_neq in Hne as ->.
  pose proof (fetch_effects token w) as (Hconsole & _).
  destruct (fetchGoogleCalendarEvents token w) as [out w'].
  cbn in Hf, Hconsole. by subst out.
Qed.


(** X15: the calendar page renders exactly when the route answers 200, and
    then it renders the very events the route returns: the heading "Your
    Calendar", the sign-in button, and the Calendar component of those
    events. *)
Theorem page_renders_what_route_returns w session :
  authResult w = Normal session →
  ∀ page,
    (CalendarPage fmt w).1 = Normal page ↔
    ∃ events,
      (GET w).1 = Normal (mkHttpResponse 200 (EventsBody events))
      ∧ page = Element "main" None []
                 [ Element "header" None []
                     [ Element "h1" None [] [Text "Your Calendar"];
                       ComponentElement "AuthButton" ];
                   Calendar fmt events ].
Proof.
  intros Hauth page. rewrite CalendarPage_run, GET_run, Hauth.
  destruct (session ≫= accessToken) as [token|].
  2:{ split; [done|]. by intros (events & [=] & _). }
  destruct (String.eqb token "").
  { split; [done|]. by intros (events & [=] & _). }
  destruct (fetchGoogleCalendarEvents token w) as [[events|e] w']; cbn.
  - split.
    + intros [= <-]. by exists events.
    + by intros (events' & [= <-] & ->).
  - split; [done|]. by intros (events' & [=] & _).
Qed.

(** X16: from the upstream to the screen. With a session token and a
    decodable success response, the calendar page renders one list item per
    item of the body, in the order of the body; the item is keyed by the
    upstream id, its heading is the summary, or "(No title)" without one,
    and for an all-day event the dateTime attribute of its time element is
    the date as the upstream sent it. *)
Theorem page_lists_upstream_items w session token q res data :
  authResult w = Normal session →
  session ≫= accessToken = Some token →
  token ≠ "" →
  exchanges (fetchGoogleCalendarEvents token w).2
    = exchanges w ++ [(q, Normal res)] →
  ok res = true →
  json res = Normal data →
  ∃ page,
    (CalendarPage fmt w).1 = Normal page
    ∧ length (byRole "listitem" page)
      = length (default [] (GoogleCalendarResponse.items data))
    ∧ ∀ i g, default [] (GoogleCalendarResponse.items data) !! i = Some g →
        ∃ item,
          byRole "listitem" page !! i = Some item
          ∧ keyOf item = Some (GoogleCalendarEvent.id g)
          ∧ textOf <$> byTag "h3" item
            = [js_or_str (GoogleCalendarEvent.summary g) "(No title)"]
          ∧ ∀ d, EventTime.dateTime (GoogleCalendarEvent.start g) = None →
                 EventTime.date (GoogleCalendarEvent.start g) = Some d →
                 prop "dateTime" <$> byTag "time" item = [Some d].
Proof.
  intros Hauth Htok Hne Hrun Hok Hjson.
  pose proof (fetch_decoded _ _ _ _ _ Hrun Hok Hjson) as Hout.
  rewrite CalendarPage_run, Hauth, Htok. apply String.eqb_neq in Hne as ->.
  destruct (fetchGoogleCalendarEvents token w) as [out w'].
  cbn in Hout. subst out. eexists. split; [done|].
  rewrite byRole_page, Calendar_listitems, !length_fmap. split; [done|].
  intros i g Hg. exists (eventArticle fmt (normalizeEvent g)).
  rewrite !list_lookup_fmap, Hg. split; [done|]. split; [done|].
  split; [apply article_heading|].
  intros d Hdt Hd.
  rewrite article_dateTime. cbn [normalizeEvent CalendarEvent.start].
  by rewrite Hdt, Hd, start_or_date_only.
Qed.

(** X19: the calendar page shows a location paragraph for exactly those
    upstream events that have a location that is not empty, with that
    location as its text. *)
Theorem page_shows_upstream_location w session token q res data :
  authResult w = Normal session →
  session ≫= accessToken = Some token →
  token ≠ "" →
  exchanges (fetchGoogleCalendarEvents token w).2
    = exchanges w ++ [(q, Normal res)] →
  ok res = true →
  json res = Normal data →
  ∃ page,
    (CalendarPage fmt w).1 = Normal page
    ∧ ∀ i g, default [] (GoogleCalendarResponse.items data) !! i = Some g →
        ∃ item,
          byRole "listitem" page !! i = Some item
          ∧ textOf <$> byClass "location" item
            = (if truthy (GoogleCalendarEvent.location g)
               then [default "" (GoogleCalendarEvent.location g)]
               else []).
Proof.
  intros Hauth Htok Hne Hrun Hok Hjson.
  pose proof (fetch_decoded _ _ _ _ _ Hrun Hok Hjson) as Hout.
  rewrite CalendarPage_run, Hauth, Htok. apply String.eqb_neq in Hne as ->.
  destruct (fetchGoogleCalendarEvents token w) as [out w'].
  cbn in Hout. subst out. eexists. split; [done|].
  rewrite byRole_page, Calendar_listitems.
  intros i g Hg. exists (eventArticle fmt (normalizeEvent g)).
  rewrite !list_lookup_fmap, Hg. split; [done|]. apply article_location.
Qed.

End pages.

Lemma pages_redirect_to_each_other_once_witness :
  let s := Some (mkSession (Some "tok")) in
  let w := world_with_session s (Normal (okResponse None)) in
  authResult w = Normal s
  ∧ (∀ q e, network w q = Throw e → err_name e ≠ "NEXT_REDIRECT")
  ∧ (∀ q res e, network w q = Normal res → json res = Throw e →
                err_name e ≠ "NEXT_REDIRECT")
  ∧ Home w = (Throw (redirectError "/calendar"), w)
  ∧ ∀ url, (CalendarPage en_format w).1 ≠ Throw (redirectError url).
Proof.
  split; [reflexivity|].
  split; [intros q e H; discriminate H|].
  split; [intros q res e H H'; injection H as <-; discriminate H'|].
  destruct (pages_redirect_to_each_other_once en_format
    (world_with_session (Some (mkSession (Some "tok")))
       (Normal (okResponse None)))
    (Some (mkSession (Some "tok")))) as [(Hf & _)|(_ & Hhome & Hpage & _)].
  - reflexivity.
  - intros q e H; discriminate H.
  - intros q res e H H'; injection H as <-; discriminate H'.
  - discriminate Hf.
  - split; [exact Hhome|exact Hpage].
Defined.

Lemma page_propagates_provider_failure_witness :
  let s := Some (mkSession (Some "tok")) in
  let w := world_with_session s (Normal (failedResponse 401)) in
  authResult w = Normal s
  ∧ s ≫= accessToken = Some "tok"
  ∧ "tok" ≠ ""
  ∧ (fetchGoogleCalendarEvents "tok" w).1
    = Throw (Error "Google Calendar API error: 401")
  ∧ (CalendarPage en_format w).1
    = Throw (Error "Google Calendar API error: 401").
Proof.
  split; [reflexivity|]. split; [reflexivity|]. split; [discriminate|].
  split; [vm_compute; reflexivity|].
  refine (proj1 (page_propagates_provider_failure en_format
    (world_with_session (Some (mkSession (Some "tok")))
       (Normal (failedResponse 401)))
    (Some (mkSession (Some "tok"))) "tok"
    (Error "Google Calendar API error: 401") _ _ _ _)).
  - reflexivity.
  - reflexivity.
  - discriminate.
  - vm_compute; reflexivity.
Defined.

Lemma page_renders_what_route_returns_witness :
  let s := Some (mkSession (Some "tok")) in
  let w := world_with_session s (Normal (okResponse (Some [allDay]))) in
  let frame calendar :=
    Element "main" None []
      [ Element "header" None []
          [ Element "h1" None [] [Text "Your Calendar"];
            ComponentElement "AuthButton" ];
        calendar ] in
  authResult w = Normal s
  ∧ (CalendarPage en_format w).1
    = Normal (frame (Calendar en_format [normalizeEvent allDay]))
  ∧ ∃ events,
      (GET w).1 = Normal (mkHttpResponse 200 (EventsBody events))
      ∧ frame (Calendar en_format [normalizeEvent allDay])
        = frame (Calendar en_format events).
Proof.
  split; [reflexivity|]. split; [vm_compute; reflexivity|].
  apply (proj1 (page_renders_what_route_returns en_format
    (world_with_session (Some (mkSession (Some "tok")))
       (Normal (okResponse (Some [allDay]))))
    (Some (mkSession (Some "tok"))) eq_refl _)).
  vm_compute; reflexivity.
Defined.

Lemma page_lists_upstream_items_witness :
  let s := Some (mkSession (Some "tok")) in
  let r := okResponse (Some [untitled; allDay]) in
  let w := world_with_session s (Normal r) in
  authResult w = Normal s
  ∧ s ≫= accessToken = Some "tok"
  ∧ "tok" ≠ ""
  ∧ exchanges (fetchGoogleCalendarEvents "tok" w).2
    = exchanges w ++ [(exampleRequest "tok", Normal r)]
  ∧ ok r = true
  ∧ json r = Normal (GoogleCalendarResponse.mk (Some [untitled; allDay]))
  ∧ ∃ page,
      (CalendarPage en_format w).1 = Normal page
      ∧ ∃ first second,
          byRole "listitem" page !! 0%nat = Some first
          ∧ byRole "listitem" page !! 1%nat = Some second
          ∧ textOf <$> byTag "h3" first = ["(No title)"]
          ∧ prop "dateTime" <$> byTag "time" second = [Some "2024-01-03"].
Proof.
  split; [reflexivity|]. split; [reflexivity|]. split; [discriminate|].
  split; [vm_compute; reflexivity|]. split; [reflexivity|].
  split; [reflexivity|].
  destruct (page_lists_upstream_items en_format
    (world_with_session (Some (mkSession (Some "tok")))
       (Normal (okResponse (Some [untitled; allDay]))))
    (Some (mkSession (Some "tok"))) "tok" (exampleRequest "tok")
    (okResponse (Some [untitled; allDay]))
    (GoogleCalendarResponse.mk (Some [untitled; allDay])))
    as (page & Hpage & _ & Hall).
  - reflexivity.
  - reflexivity.
  - discriminate.
  - vm_compute; reflexivity.
  - reflexivity.
  - reflexivity.
  - exists page. split; [exact Hpage|].
    destruct (Hall 0%nat untitled eq_refl) as (first & H1 & _ & Hh & _).
    destruct (Hall 1%nat allDay eq_refl) as (second & H2 & _ & _ & Ht).
    exists first, second. split; [exact H1|]. split; [exact H2|].
    split; [exact Hh|]. apply Ht; reflexivity.
Defined.

Lemma page_shows_upstream_location_witness :
  let office :=
    GoogleCalendarEvent.mk "6" (Some "Standup")
      (EventTime.mk (Some "2024-01-05T09:00:00Z") None)
      (EventTime.mk (Some "2024-01-05T09:15:00Z") None) None (Some "Office") in
  let s := Some (mkSession (Some "tok")) in
  let r := okResponse (Some [office; meeting]) in
  let w := world_with_session s (Normal r) in
  authResult w = Normal s
  ∧ s ≫= accessToken = Some "tok"
  ∧ "tok" ≠ ""
  ∧ exchanges (fetchGoogleCalendarEvents "tok" w).2
    = exchanges w ++ [(exampleRequest "tok", Normal r)]
  ∧ ok r = true
  ∧ json r = Normal (GoogleCalendarResponse.mk (Some [office; meeting]))
  ∧ ∃ page,
      (CalendarPage en_format w).1 = Normal page
      ∧ ∃ first second,
          byRole "listitem" page !! 0%nat = Some first
          ∧ byRole "listitem" page !! 1%nat = Some second
          ∧ textOf <$> byClass "location" first = ["Office"]
          ∧ textOf <$> byClass "location" second = [].
Proof.
  cbv zeta.
  split; [reflexivity|]. split; [reflexivity|]. split; [discriminate|].
  split; [vm_compute; reflexivity|]. split; [reflexivity|].
  split; [reflexivity|].
  destruct (page_shows_upstream_location en_format
    (world_with_session (Some (mkSession (Some "tok")))
       (Normal (okResponse (Some
          [GoogleCalendarEvent.mk "6" (Some "Standup")
             (EventTime.mk (Some "2024-01-05T09:00:00Z") None)
             (EventTime.mk (Some "2024-01-05T09:15:00Z") None) None
             (Some "Office"); meeting]))))
    (Some (mkSession (Some "tok"))) "tok" (exampleRequest "tok")
    (okResponse (Some
       [GoogleCalendarEvent.mk "6" (Some "Standup")
          (EventTime.mk (Some "2024-01-05T09:00:00Z") None)
          (EventTime.mk (Some "2024-01-05T09:15:00Z") None) None
          (Some "Office"); meeting]))
    (GoogleCalendarResponse.mk (Some
       [GoogleCalendarEvent.mk "6" (Some "Standup")
          (EventTime.mk (Some "2024-01-05T09:00:00Z") None)
          (EventTime.mk (Some "2024-01-05T09:15:00Z") None) None
          (Some "Office"); meeting])))
    as (page & Hpage & Hall).
  - reflexivity.
  - reflexivity.
  - discriminate.
  - vm_compute; reflexivity.
  - reflexivity.
  - reflexivity.
  - exists page. split; [exact Hpage|].
    destruct (Hall 0%nat _ eq_refl) as (first & H1 & Hl1).
    destruct (Hall 1%nat _ eq_refl) as (second & H2 & Hl2).
    exists first, second. split; [exact H1|]. split; [exact H2|].
    split; [exact Hl1|exact Hl2].
Defined.

(** * The callbacks of lib/auth.ts *)

Lemma jwt_after_cons token account accounts :
  jwt_after token (account :: accounts)
  = jwt_after (jwt_callback token account) accounts.
Proof. reflexivity. Qed.

Lemma jwt_after_latest token accounts :
  jwt_accessToken (jwt_after token accounts)
  = match last (omap id accounts) with
    | Some a => access_token a
    | None => jwt_accessToken token
    end.
Proof.
  revert token. induction accounts as [|account accounts IH]; intros token.
  { done. }
  rewrite jwt_after_cons, IH. destruct account as [a|]; cbn [omap list_omap id].
  - rewrite last_cons. by destruct (last (omap id accounts)).
  - done.
Qed.

Lemma omap_replicate_None {A} n : omap id (replicate n (@None A)) = [].
Proof. induction n as [|n IH]; [done|]. exact IH. Qed.

(** X17: after any series of [jwt] invocations, the access token in the JWT
    is the [access_token] of the most recent invocation that carried an
    account (a sign-in), whether defined or not; invocations without an
    account keep it, so it is never refreshed between sign-ins. Without any
    sign-in the JWT keeps the access token it had. *)
Theorem jwt_keeps_latest_sign_in token accounts :
  jwt_accessToken (jwt_after token accounts)
  = match last (omap id accounts) with
    | Some a => access_token a
    | None => jwt_accessToken token
    end
  ∧ ∀ a n,
      jwt_after token (accounts ++ Some a :: replicate n None)
      = mkJWT (access_token a).
Proof.
  split; [apply jwt_after_latest|].
  intros a n.
  assert (H : jwt_accessToken
                (jwt_after token (accounts ++ Some a :: replicate n None))
              = access_token a).
  { rewrite jwt_after_latest, omap_app. cbn [omap list_omap id].
    by rewrite omap_replicate_None, last_snoc. }
  by destruct (jwt_after _ _) as [t]; cbn in H; subst.
Qed.

(** X18: from sign-in to the upstream. When [auth()] resolves to the session
    that the [session] callback builds from the JWT of a sign-in followed by
    any number of later [jwt] invocations, the route's request carries the
    [access_token] of that sign-in as bearer; when the sign-in brought no
    access token, or an empty one, the route answers 401 and issues no
    request. *)
Theorem sign_in_token_reaches_upstream w session0 token0 a n :
  authResult w
    = Normal (Some (session_callback session0
                      (jwt_after token0 (Some a :: replicate n None)))) →
  (∀ t, access_token a = Some t → t ≠ "" →
     exchanges (GET w).2 = exchanges (fetchGoogleCalendarEvents t w).2
     ∧ ∀ q r, exchanges (GET w).2 = exchanges w ++ [(q, r)] →
              req_headers q = [("Authorization", "Bearer " +:+ t)])
  ∧ (access_token a = None ∨ access_token a = Some "" →
     (GET w).1 = Normal (mkHttpResponse 401 (ErrorBody "Unauthorized"))
     ∧ exchanges (GET w).2 = exchanges w).
Proof.
  intros Hauth. rewrite GET_run, Hauth. cbn [mbind option_bind].
  unfold session_callback. cbn [accessToken].
  rewrite jwt_after_latest. cbn [omap list_omap id].
  rewrite omap_replicate_None. cbn [last]. split.
  - intros t -> Hne. apply String.eqb_neq in Hne as ->.
    assert (Hbearer : ∀ q r,
      exchanges (fetchGoogleCalendarEvents t w).2 = exchanges w ++ [(q, r)] →
      req_headers q = [("Authorization", "Bearer " +:+ t)]).
    { intros q r Hrun.
      by destruct (fetch_exchange _ _ _ _ Hrun) as (? & ? & _ & _ & -> & _). }
    destruct (fetchGoogleCalendarEvents t w) as [[events|e] w'];
      cbn in *; (split; [done|apply Hbearer]).
  - by intros [-> | ->].
Qed.

Lemma sign_in_token_reaches_upstream_witness :
  let w :=
    world_with_session
      (Some (session_callback (mkSession None)
               (jwt_after (mkJWT None)
                  (Some (mkAccount (Some "ya29.token")) :: replicate 3 None))))
      (Normal (okResponse None)) in
  authResult w
    = Normal (Some (session_callback (mkSession None)
                      (jwt_after (mkJWT None)
                         (Some (mkAccount (Some "ya29.token"))
                          :: replicate 3 None))))
  ∧ access_token (mkAccount (Some "ya29.token")) = Some "ya29.token"
  ∧ "ya29.token" ≠ ""
  ∧ exchanges (GET w).2
    = exchanges w ++ [(exampleRequest "ya29.token", Normal (okResponse None))]
  ∧ req_headers (exampleRequest "ya29.token")
    = [("Authorization", "Bearer ya29.token")].
Proof.
  split; [reflexivity|]. split; [reflexivity|]. split; [discriminate|].
  split; [vm_compute; reflexivity|].
  refine (proj2 (proj1 (sign_in_token_reaches_upstream
    (world_with_session
       (Some (session_callback (mkSession None)
                (jwt_after (mkJWT None)
                   (Some (mkAccount (Some "ya29.token")) :: replicate 3 None))))
       (Normal (okResponse None)))
    (mkSession None) (mkJWT None) (mkAccount (Some "ya29.token")) 3 _)
    "ya29.token" _ _) (exampleRequest "ya29.token")
    (Normal (okResponse None)) _).
  - reflexivity.
  - reflexivity.
  - discriminate.
  - vm_compute; reflexivity.
Defined.
